(* ===== verification/_CoqProject ===== *)
-Q . S2P
Prelude.v
JsString.v
Catalog.v
Dom.v
Render.v
Filter.v
Pagination.v
Selection.v
Theme.v
App.v
Session.v
Commands.v
