(* ===== verification/Prelude.v ===== *)
(** * Book Connect: a verification development for [src/scripts.js]

    ** The program

    [src/scripts.js] is the whole client of a book catalogue page.  It keeps
    two module variables, [page] and [matches], reads four constants from
    [data.js] ([books], [authors], [genres], [BOOKS_PER_PAGE]) and drives the
    page through the DOM.  Its parts, and where each is modelled:

    - host primitives (strings, numbers, [Array.prototype.slice]):
      this file ([slice], [Result], the [===] notation) and [JsString.v]
      ([toLowerCase], [trim], [includes], [numberToString]);
    - the catalogue of [data.js]: [Catalog.v] ([Book], [JsObject], [Data]);
    - the part of the DOM the script reads or writes: [Dom.v] ([Element],
      [OptionElement], [Document] and its sub-records, one field per
      property the script assigns);
    - rendering ([createBookPreview], [renderBookPreviews], [renderGenres],
      [renderAuthors]): [Render.v];
    - the search filter, i.e. the loop of [handleSearchFormSubmit]:
      [Filter.v] ([genreLoop], [bookMatches], [searchLoop]) with its
      reference definition [filterBooks];
    - pagination ([updateBookList], [updateListButton],
      [handleListButtonClick]): [Pagination.v], over the record [State]
      that holds [page], [matches] and the document;
    - selection ([handleBookPreviewClick] and the listener it registers on
      the close button): [Selection.v];
    - theme and overlays ([handleThemeToggle], [handleSearchCancel],
      [handleSettingsCancel] and the three anonymous listeners): [Theme.v];
    - the program as a whole ([initializePage], the registration of the
      listeners as the dispatch function [handle], the step relation [step]
      and the reachable states): [App.v];
    - the abstract browsing session of the specification and the proof that
      the program refines it: [Session.v];
    - the render commands of the specification, their meaning on the
      document and the commands emitted along a run: [Commands.v].

    ** Conventions of the model

    - A handler is a function from [State] to [State]; the one handler that
      can throw ([handleSearchFormSubmit], when the form has no [title]
      field) returns a [Result].  Handlers run to completion, so a run of the
      program is a list of events folded through [handle].
    - JavaScript numbers are modelled by [Z].  Every number the script
      computes is an integer combination of list lengths, [page] and
      [BOOKS_PER_PAGE]; [Z] is exact for them as long as they stay below
      2^53, which holds for any catalogue a browser can load.
    - Strings are sequences of code units below 256 (Latin-1).  In that
      range [toLowerCase] and [trim] are modelled exactly; code units above
      255 are outside the model.
    - [undefined] is [None]: a missing form field, a missing author name.
      Properties inherited from [Object.prototype] are not modelled, so
      identifiers are assumed not to be names such as [constructor].
    - Every property of a book is present and a string, [BOOKS_PER_PAGE] is
      an integer.  The two tables are association lists in the order
      [Object.entries] enumerates them, without duplicate keys; that order
      is assumed by the representation, not computed.  A field of the
      search form is a string, not a file.
    - The host, not the script, decides which listeners run: a disabled
      button dispatches no click ([enabled] of [App.v]), and a click on the
      close button runs every listener registered on it so far
      ([handleCloseButtonClick] of [Selection.v], the iteration of
      [closeListener] over the number of registrations of line 171).
    - The content of the show more button is one field,
      [list_button_innerHTML]; [initializePage] assigns it through
      [innerText], which for its text gives the same content.
    - Every element the script looks up with [querySelector] is assumed to
      exist, as in the page's markup; the initial document is
      [initial_document] of [Dom.v].
    - [new Date(s).getFullYear()] and [matchMedia] belong to the host and are
      the fields of the class [Host] of [Selection.v] and an argument of
      [initializePage].

    ** What is proved

    - [JsString.v]: [includes] is the substring relation, [trim] is empty
      exactly on whitespace, [toLowerCase] is idempotent and length
      preserving.
    - [Render.v]: the closed form of the three rendering functions: one
      preview per book and one option per table entry, in order, behind the
      children already there.
    - [Filter.v]: the loop equals the reference filter [filterBooks]; its
      result is a subsequence of the catalogue, is everything for the
      neutral criteria, is idempotent; it throws exactly when the form has
      no title and the catalogue is not empty; the genre loop with its
      [break] is list membership; the title test is a case-insensitive
      substring test.  The loop respects the equivalence [same_filters] of
      forms that agree on the three fields; this is kept as [Proper]
      instances, not as a property of its own.
    - [Pagination.v]: the closed form of [updateBookList] and
      [handleListButtonClick] on every branch; [list_in_sync] (the list
      holds the previews of the first [page * BOOKS_PER_PAGE] matches) is
      preserved; after as many clicks as the result has pages nothing is
      left and the list holds every match; the disabled flag is never
      recomputed by a click.  [same_list] is the equivalence of states that
      agree on [page], [matches] and the list, with [Proper] instances for
      what is read from them.
    - [Selection.v]: the two loops of [handleBookPreviewClick] find the
      first node of the path whose identifier denotes a book, and that book
      is the first of the catalogue with the identifier; a click in a
      preview opens the overlay on its book, an unknown identifier changes
      nothing; a click on the close button leaves the overlay closed with
      its contents in place, or does nothing when it was never opened.
    - [Theme.v]: the palette after a submit is that of the theme the select
      stands for.
    - [App.v]: the state after [initializePage]; the invariants of all
      reachable states, by [reachable_invariant] (the list is in step with
      [page] and [matches], [page >= 1], the matches are a subsequence of the
      catalogue, an open overlay can be closed, the menus and the palette
      are well formed, the label is the start-up text or the remaining
      count); a click on any element shown opens the book at its position;
      the number of close listeners is the number of openings; the behaviour
      of the show more button after start-up; the three outcomes of a
      search.
    - [Session.v]: the program refines the abstract session of the
      specification: a forward simulation, one step of the machine per
      event, for every run whose search forms have their three fields.
    - [Commands.v]: along such a run the handlers write to the list, the
      label, the detail overlay and the palette exactly what the commands of
      the specification's reducer prescribe ([same_display] is the
      equivalence of documents that display the same; carrying out a command
      respects it).

    Each theorem with hypotheses is applied to the five-book catalogue
    [demo_data] of [Catalog.v] (page size 2) in a lemma named after it; the
    scenarios of the specification are the [Example]s at the end of
    [Filter.v] and [App.v].

    ** Bounds and termination

    Every loop of the script iterates over a finite array and is modelled by
    structural recursion on the list ([genreLoop], [searchLoop], [findBook],
    [pathLoop], [previewFragment], [optionFragment]); no fuel is needed and
    every model function is total.  A [break] is a test at the head of the
    iteration, as in the source.  The theorems hold for catalogues of any
    size and any [BOOKS_PER_PAGE]; the hypotheses [0 <= BOOKS_PER_PAGE] or
    [wf_data] (positive page size, distinct non-empty identifiers) are
    stated where a theorem needs them.

    ** What modelling showed

    - [initializePage] disables the show more button when books remain and
      enables it when none does, the opposite of [updateBookList]
      ([boot_button], [stuck_on_first_page]).
    - [handleListButtonClick] never recomputes the disabled flag
      ([show_more_disabled]).
    - The start-up label is not clamped at zero ([boot_eq]).
    - A form without [title] makes the search throw; a form without
      [author] or [genre] finds nothing ([search_without_title],
      [search_missing_field]).
    - A listener is added to the close button at every opening
      ([listeners_count]).
    - The walk along the path continues past an identifier that denotes no
      book ([handleBookPreviewClick_first]).

    ** Not modelled

    The markup and the style sheet (the document starts as
    [initial_document]); smooth scrolling (only the target position is
    kept); [event.preventDefault]; the layout of text by [innerText]; code
    units above 255 in strings; properties inherited from
    [Object.prototype]; the media query and the date parser of the host,
    which are parameters ([prefersDark], the class [Host]).

    ** This file

    The prelude: the libraries every file loads, the scope [js_scope] with
    the notation [x === y] for strict equality as a boolean, the result type
    of code that can throw, [slice] with its lemmas, the hint databases [js]
    and [js_rw] and the tactics [js_cases] and [js_simpl]. *)

From Stdlib Require Export ZArith Lia.
From stdpp Require Export base tactics option list strings gmap pretty.
Set Warnings "-clear-no-such-hyp".

#[global] Open Scope Z_scope.

Declare Scope js_scope.
Delimit Scope js_scope with js.

(** Strict equality of two values of the same type, as the boolean the
    script branches on. *)
Notation "x === y" := (bool_decide (x = y))
  (at level 70, no associativity) : js_scope.

#[global] Open Scope js_scope.

Create HintDb js discriminated.

(** ** Exceptions *)

Inductive JsError : Type :=
  | TypeError (msg : string).

Inductive Result (A : Type) : Type :=
  | Ok (a : A)
  | Throw (e : JsError).
Arguments Ok {A} a.
Arguments Throw {A} e.

#[export] Instance JsError_eq_dec : EqDecision JsError.
Proof. solve_decision. Defined.

#[export] Instance Result_eq_dec `{EqDecision A} : EqDecision (Result A).
Proof. solve_decision. Defined.

#[export] Instance Result_ret : MRet Result := λ A, Ok.

#[export] Instance Result_bind : MBind Result := λ A B f m,
  match m with
  | Ok a => f a
  | Throw e => Throw e
  end.

#[export] Instance Result_fmap : FMap Result := λ A B f m,
  match m with
  | Ok a => Ok (f a)
  | Throw e => Throw e
  end.

Definition isOk {A} (r : Result A) : bool :=
  match r with
  | Ok _ => true
  | Throw _ => false
  end.

(** ** Arrays

    The [length] property of an array, as a number. *)

Definition arrayLength {A} (l : list A) : Z := Z.of_nat (length l).

(** ** Array.prototype.slice

    [relIndex len i] is the clamping step of the ECMAScript algorithm: a
    negative index counts from the end, and the result is kept within
    [0 .. len]. *)

Definition relIndex (len i : Z) : Z :=
  if bool_decide (i < 0) then Z.max (len + i) 0 else Z.min i len.

Definition slice {A} (l : list A) (start stop : Z) : list A :=
  let len := arrayLength l in
  let k := relIndex len start in
  let final := relIndex len stop in
  take (Z.to_nat (final - k)) (drop (Z.to_nat k) l).

(** ** Tactics *)

(** Case analysis on every test the goal branches on. *)
Ltac js_cases :=
  repeat case_bool_decide; repeat case_match;
  simplify_eq/=; try done; try lia.

(** Turn an equation between booleans into an equivalence of propositions. *)
Ltac bool_iff :=
  apply eq_iff_eq_true;
  rewrite ?andb_true_iff, ?orb_true_iff, ?negb_true_iff, ?bool_decide_eq_true.

(** ** Lemmas on results *)

Section result.
Context {A B : Type}.
Implicit Types (r : Result A) (f : A → Result B).

Lemma bind_Ok a f : (Ok a ≫= f) = f a.
Proof. done. Qed.

Lemma bind_Throw e f : (Throw e ≫= f) = Throw e.
Proof. done. Qed.

Lemma bind_Ok_inv r f b :
  r ≫= f = Ok b ↔ ∃ a, r = Ok a ∧ f a = Ok b.
Proof.
  destruct r as [a|e]; simpl; split.
  - eauto.
  - by intros (a' & [= <-] & ?).
  - done.
  - by intros (a' & ? & ?).
Qed.

Lemma isOk_true r : isOk r = true ↔ ∃ a, r = Ok a.
Proof. destruct r; simpl; split; eauto; try done. by intros [? ?]. Qed.
End result.

(** ** Lemmas on take and drop shared by the components *)

Section lists.
Context {A : Type}.
Implicit Types (l : list A) (n m : nat).

Lemma filter_all (P : A → Prop) `{!∀ x, Decision (P x)} l :
  Forall P l → filter P l = l.
Proof.
  induction 1 as [|x l Hx _ IH]; [done|].
  by rewrite filter_cons_True, IH.
Qed.

Lemma filter_none (P : A → Prop) `{!∀ x, Decision (P x)} l :
  Forall (λ x, ¬ P x) l → filter P l = [].
Proof.
  induction 1 as [|x l Hx _ IH]; [done|].
  by rewrite filter_cons_False.
Qed.

Lemma take_min_length l n : take (n `min` length l) l = take n l.
Proof.
  destruct (decide (n ≤ length l)%nat).
  - by rewrite Nat.min_l.
  - rewrite Nat.min_r; [|lia]. by rewrite !take_ge by lia.
Qed.

Lemma take_sub_drop l n m : take (m - n) (drop n l) = drop n (take m l).
Proof.
  destruct (decide (n ≤ m)%nat).
  - rewrite take_drop_commute. do 2 f_equal. lia.
  - replace (m - n)%nat with 0%nat by lia.
    simpl. symmetry. apply drop_ge. rewrite length_take. lia.
Qed.

Lemma take_app_window l n m :
  (n ≤ m)%nat → take n l ++ take (m - n) (drop n l) = take m l.
Proof. intros. rewrite take_take_drop. f_equal. lia. Qed.

Lemma take_prefix_mono l n m : (n ≤ m)%nat → take n l `prefix_of` take m l.
Proof. intros. rewrite <-(take_app_window l n m) by done. by eexists. Qed.
End lists.

(** ** Lemmas on slice *)

Section slice.
Context {A : Type}.
Implicit Types (l : list A) (a b : Z).

Lemma arrayLength_nonneg l : 0 ≤ arrayLength l.
Proof. unfold arrayLength. lia. Qed.

Lemma arrayLength_nil : arrayLength (@nil A) = 0.
Proof. done. Qed.

Lemma arrayLength_0 l : arrayLength l = 0 ↔ l = [].
Proof. unfold arrayLength. destruct l; simpl; split; (done || lia). Qed.

Lemma relIndex_nonneg len i : 0 ≤ len → 0 ≤ i → relIndex len i = Z.min i len.
Proof. intros. unfold relIndex. js_cases. Qed.

Lemma relIndex_bounds len i : 0 ≤ len → 0 ≤ relIndex len i ≤ len.
Proof. intros. unfold relIndex. js_cases. Qed.

(** With indices that are not negative, [slice] is a [take] of a [drop]. *)
Lemma slice_nonneg l a b :
  0 ≤ a → 0 ≤ b →
  slice l a b = take (Z.to_nat b - Z.to_nat a) (drop (Z.to_nat a) l).
Proof.
  intros Ha Hb. unfold slice, arrayLength. rewrite !relIndex_nonneg by lia.
  destruct (decide (Z.to_nat a ≤ length l)%nat) as [Hle|Hgt].
  - replace (Z.to_nat (a `min` Z.of_nat (length l))) with (Z.to_nat a) by lia.
    rewrite <-(take_min_length (drop _ l) (Z.to_nat b - Z.to_nat a)).
    f_equal. rewrite length_drop. lia.
  - rewrite !drop_ge by lia. by rewrite !take_nil.
Qed.

Lemma slice_0 l b : 0 ≤ b → slice l 0 b = take (Z.to_nat b) l.
Proof. intros. rewrite slice_nonneg by lia. simpl. f_equal. lia. Qed.

Lemma slice_sublist l a b : slice l a b `sublist_of` l.
Proof.
  unfold slice. trans (drop (Z.to_nat (relIndex (arrayLength l) a)) l).
  - apply sublist_take.
  - apply sublist_drop.
Qed.

Lemma slice_nil a b : slice (@nil A) a b = [].
Proof. unfold slice. by rewrite drop_nil, take_nil. Qed.

Lemma slice_empty_range l a b : 0 ≤ b ≤ a → slice l a b = [].
Proof.
  intros. rewrite slice_nonneg by lia.
  by replace (Z.to_nat b - Z.to_nat a)%nat with 0%nat by lia.
Qed.

(** The window [a .. b) continues the prefix [0 .. a). *)
Lemma slice_window l a b :
  0 ≤ a ≤ b → slice l 0 a ++ slice l a b = slice l 0 b.
Proof.
  intros. rewrite !slice_0, slice_nonneg by lia.
  apply take_app_window. lia.
Qed.

Lemma length_slice_le l a b :
  0 ≤ a → 0 ≤ b → (length (slice l a b) ≤ Z.to_nat (b - a))%nat.
Proof. intros. rewrite slice_nonneg, length_take by lia. lia. Qed.

Lemma length_slice l a b :
  0 ≤ a ≤ b →
  arrayLength (slice l a b) = Z.max 0 (Z.min b (arrayLength l) - a).
Proof.
  intros. unfold arrayLength.
  rewrite slice_nonneg, length_take, length_drop by lia. lia.
Qed.

Lemma slice_all l b : arrayLength l ≤ b → slice l 0 b = l.
Proof.
  unfold arrayLength. intros. rewrite slice_0 by lia. apply take_ge. lia.
Qed.

Lemma slice_past_end l a b :
  arrayLength l ≤ a → 0 ≤ b → slice l a b = [].
Proof.
  unfold arrayLength. intros. rewrite slice_nonneg by lia.
  rewrite drop_ge by lia. apply take_nil.
Qed.
End slice.

Lemma slice_fmap {A B} (f : A → B) (l : list A) a b :
  slice (f <$> l) a b = f <$> slice l a b.
Proof.
  unfold slice, arrayLength. by rewrite fmap_take, fmap_drop, length_fmap.
Qed.

#[export] Hint Resolve slice_sublist : js.
Create Rewrite HintDb js_rw.
#[export] Hint Rewrite @slice_nil : js_rw.
#[export] Hint Rewrite @length_fmap @length_app @length_take @length_drop : js_rw.
#[export] Hint Rewrite Z.mul_1_l Z.add_0_r Z.sub_0_r : js_rw.

(** Rewrite with the closed forms of the handlers collected in [js_rw] and
    compute, until nothing changes. *)
Ltac js_simpl := repeat (progress (autorewrite with js_rw; simpl)).
