(* ===== verification/JsString.v ===== *)
(** * Host string primitives

    The methods of [String.prototype] and the conversions to string that
    [src/scripts.js] calls: [toLowerCase], [trim], [includes], the
    interpolation of a number and of a possibly missing property in a
    template literal.  They belong to the JavaScript engine, not to the
    repository, and are modelled from the ECMAScript definition restricted to
    code units below 256.  A string is a [string] of the standard library,
    one [ascii] per code unit. *)

From Stdlib Require Import Ascii.
From S2P Require Import Prelude.
Set Warnings "-clear-no-such-hyp".

(** ** Characters *)

(** The upper case letters below 256: A-Z and the Latin-1 letters
    U+00C0-U+00DE except the multiplication sign U+00D7. *)
Definition isUpper (c : ascii) : bool :=
  let n := N_of_ascii c in
  ((65 <=? n) && (n <=? 90) || (192 <=? n) && (n <=? 222) && negb (n =? 215))%N.

Definition lowerChar (c : ascii) : ascii :=
  if isUpper c then ascii_of_N (N_of_ascii c + 32) else c.

(** WhiteSpace and LineTerminator below 256: TAB, LF, VT, FF, CR, SP, NBSP. *)
Definition isWhiteSpace (c : ascii) : bool :=
  let n := N_of_ascii c in
  ((9 <=? n) && (n <=? 13) || (n =? 32) || (n =? 160))%N.

(** ** Strings *)

Fixpoint toLowerCase (s : string) : string :=
  match s with
  | EmptyString => EmptyString
  | String c s' => String (lowerChar c) (toLowerCase s')
  end.

Fixpoint trimStart (s : string) : string :=
  match s with
  | EmptyString => EmptyString
  | String c s' => if isWhiteSpace c then trimStart s' else s
  end.

Fixpoint trimEnd (s : string) : string :=
  match s with
  | EmptyString => EmptyString
  | String c s' =>
      let t := trimEnd s' in
      if isWhiteSpace c && (t === EmptyString) then EmptyString else String c t
  end.

Definition trim (s : string) : string := trimEnd (trimStart s).

(** [startsWith s t]: [t] is a prefix of [s]. *)
Fixpoint startsWith (s t : string) {struct t} : bool :=
  match t with
  | EmptyString => true
  | String b t' =>
      match s with
      | EmptyString => false
      | String a s' => (a === b) && startsWith s' t'
      end
  end.

(** [includes s t] is [s.includes(t)]: [t] occurs in [s] at some position. *)
Fixpoint includes (s t : string) : bool :=
  startsWith s t ||
  match s with
  | EmptyString => false
  | String _ s' => includes s' t
  end.

(** Every code unit is white space. *)
Fixpoint blank (s : string) : bool :=
  match s with
  | EmptyString => true
  | String c s' => isWhiteSpace c && blank s'
  end.

(** ** Reference predicates *)

(** [t] occurs in [s]. *)
Definition Substring (t s : string) : Prop :=
  ∃ pre post, s = pre +:+ t +:+ post.

(** ** Conversions to string in template literals *)

(** An integer: decimal digits, with a minus sign when negative. *)
Definition numberToString (n : Z) : string := pretty n.

(** The result of a property read: the string, or the text of [undefined]. *)
Definition propToString (o : option string) : string :=
  default "undefined" o.

(** A number that may be [NaN]. *)
Definition nanToString (o : option Z) : string :=
  from_option numberToString "NaN" o.

(** ** Lemmas: append *)

Lemma string_app_nil_l (s : string) : EmptyString +:+ s = s.
Proof. reflexivity. Qed.

Lemma string_app_cons c (s t : string) : String c s +:+ t = String c (s +:+ t).
Proof. reflexivity. Qed.

(** Append is never unfolded by [simpl]: the two equations do it. *)
Ltac string_simpl :=
  repeat first
    [ rewrite string_app_cons | rewrite string_app_nil_l | progress simpl ].

Lemma string_app_nil_r (s : string) : s +:+ EmptyString = s.
Proof. induction s; string_simpl; congruence. Qed.

Lemma string_app_assoc (s t u : string) : (s +:+ t) +:+ u = s +:+ (t +:+ u).
Proof. induction s; string_simpl; congruence. Qed.

Lemma string_app_length (s t : string) :
  String.length (s +:+ t) = (String.length s + String.length t)%nat.
Proof. induction s; string_simpl; congruence. Qed.

(** ** Lemmas: toLowerCase *)

Lemma lowerChar_not_upper c : isUpper (lowerChar c) = false.
Proof.
  destruct c as [[] [] [] [] [] [] [] []]; vm_compute; reflexivity.
Qed.

Lemma lowerChar_idemp c : lowerChar (lowerChar c) = lowerChar c.
Proof. unfold lowerChar at 1. by rewrite lowerChar_not_upper. Qed.

Lemma toLowerCase_idemp s : toLowerCase (toLowerCase s) = toLowerCase s.
Proof. induction s; simpl; [done|]. by rewrite lowerChar_idemp, IHs. Qed.

Lemma toLowerCase_app s t :
  toLowerCase (s +:+ t) = toLowerCase s +:+ toLowerCase t.
Proof. induction s; string_simpl; congruence. Qed.

Lemma toLowerCase_length s : String.length (toLowerCase s) = String.length s.
Proof. induction s; simpl; congruence. Qed.

(** ** Lemmas: includes *)

Lemma startsWith_spec s t :
  startsWith s t = true ↔ ∃ post, s = t +:+ post.
Proof.
  revert s. induction t as [|b t IH]; intros s; simpl.
  - split; [intros _; by exists s|done].
  - destruct s as [|a s]; simpl.
    + split; [done|]. by intros [post ?].
    + rewrite andb_true_iff, bool_decide_eq_true, IH. split.
      * intros [-> [post ->]]. by exists post.
      * intros [post [= -> ->]]. eauto.
Qed.

Lemma includes_spec s t :
  includes s t = true ↔ ∃ pre post, s = pre +:+ t +:+ post.
Proof.
  induction s as [|a s IH]; simpl; rewrite orb_true_iff, startsWith_spec.
  - split.
    + intros [[post ->]|?]; [|done]. by exists EmptyString, post.
    + intros (pre & post & H). left. destruct pre; [by exists post|done].
  - rewrite IH. split.
    + intros [[post ->]|(pre & post & ->)].
      * by exists EmptyString, post.
      * by exists (String a pre), post.
    + intros (pre & post & H). destruct pre as [|a' pre]; simpl in H.
      * left. by exists post.
      * right. injection H as -> ->. eauto.
Qed.

#[export] Instance Substring_dec t s : Decision (Substring t s).
Proof.
  refine (cast_if (decide (includes s t = true)));
    unfold Substring; by rewrite <-includes_spec.
Defined.

Lemma includes_Substring s t : includes s t = true ↔ Substring t s.
Proof. apply includes_spec. Qed.

Lemma includes_empty s : includes s EmptyString = true.
Proof. destruct s; done. Qed.

Lemma includes_refl s : includes s s = true.
Proof.
  apply includes_spec. exists EmptyString, EmptyString.
  by rewrite string_app_nil_r.
Qed.

Lemma includes_trans s t u :
  includes s t = true → includes t u = true → includes s u = true.
Proof.
  rewrite !includes_spec. intros (p1 & q1 & ->) (p2 & q2 & ->).
  exists (p1 +:+ p2), (q2 +:+ q1). by rewrite !string_app_assoc.
Qed.

Lemma includes_length s t :
  includes s t = true → (String.length t ≤ String.length s)%nat.
Proof.
  rewrite includes_spec. intros (pre & post & ->).
  rewrite !string_app_length. lia.
Qed.

(** A match that ignores case follows from an exact one. *)
Lemma includes_toLowerCase s t :
  includes s t = true → includes (toLowerCase s) (toLowerCase t) = true.
Proof.
  rewrite !includes_spec. intros (pre & post & ->).
  exists (toLowerCase pre), (toLowerCase post).
  by rewrite !toLowerCase_app.
Qed.

(** ** Lemmas: trim *)

Lemma trimStart_blank s : trimStart s = EmptyString ↔ blank s = true.
Proof.
  induction s as [|c s IH]; simpl; [done|].
  destruct (isWhiteSpace c); simpl; [done|]. split; done.
Qed.

Lemma trimEnd_empty s : trimEnd s = EmptyString ↔ blank s = true.
Proof.
  induction s as [|c s IH]; simpl; [done|].
  destruct (isWhiteSpace c); simpl; [|done].
  case_bool_decide as Ht; [tauto|]. split; [done|]. intros; tauto.
Qed.

Lemma trimStart_suffix s : ∃ pre, blank pre = true ∧ s = pre +:+ trimStart s.
Proof.
  induction s as [|c s (pre & Hpre & IH)]; simpl.
  - by exists EmptyString.
  - destruct (isWhiteSpace c) eqn:Hc.
    + exists (String c pre). split; [simpl; by rewrite Hc|].
      rewrite string_app_cons. by f_equal.
    + by exists EmptyString.
Qed.

Lemma blank_app s t : blank (s +:+ t) = blank s && blank t.
Proof.
  induction s as [|c s IH]; simpl; [done|]. by rewrite IH, andb_assoc.
Qed.

(** [trim] returns the empty string exactly on strings of white space. *)
Lemma trim_empty_iff s : trim s = EmptyString ↔ blank s = true.
Proof.
  unfold trim. rewrite trimEnd_empty.
  destruct (trimStart_suffix s) as (pre & Hpre & Hs).
  rewrite Hs at 2. rewrite blank_app, Hpre. done.
Qed.

Lemma trim_empty : trim EmptyString = EmptyString.
Proof. done. Qed.

Lemma isWhiteSpace_lowerChar c : isWhiteSpace (lowerChar c) = isWhiteSpace c.
Proof.
  destruct c as [[] [] [] [] [] [] [] []]; vm_compute; reflexivity.
Qed.

Lemma blank_toLowerCase s : blank (toLowerCase s) = blank s.
Proof.
  induction s as [|c s IH]; simpl; [done|].
  by rewrite isWhiteSpace_lowerChar, IH.
Qed.

(** ** Lemmas: conversions *)

Lemma numberToString_inj : Inj (=) (=) numberToString.
Proof. unfold numberToString. apply _. Qed.
