(* ===== verification/Catalog.v ===== *)
(** * The catalogue

    [src/scripts.js] imports [books], [authors], [genres] and
    [BOOKS_PER_PAGE] from [data.js], which is not part of the sources: the
    shapes below are the ones the script relies on (the properties it reads
    from a book, string-keyed objects for the two tables, a number for the
    page size).  The script never writes to them. *)

From S2P Require Import Prelude JsString.
Set Warnings "-clear-no-such-hyp".

(** A book record, with the properties the script reads. *)
Record Book : Type := mkBook {
  book_id : string;
  book_title : string;
  book_author : string;
  book_image : string;
  book_description : string;
  book_published : string;
  book_genres : list string;
}.

#[export] Instance Book_eq_dec : EqDecision Book.
Proof. solve_decision. Defined.

#[export] Instance Book_inhabited : Inhabited Book :=
  populate (mkBook EmptyString EmptyString EmptyString EmptyString
              EmptyString EmptyString []).

(** An object used as a table from identifiers to display names: its
    entries in the order [Object.entries] enumerates them. *)
Definition JsObject : Type := list (string * string).

(** The property read [o[k]]: [None] is [undefined]. *)
Fixpoint objGet (o : JsObject) (k : string) : option string :=
  match o with
  | [] => None
  | (k', v) :: o' => if k' === k then Some v else objGet o' k
  end.

Definition objEntries (o : JsObject) : list (string * string) := o.

(** The four imports of [data.js]. *)
Record Data : Type := mkData {
  books : list Book;
  authors : JsObject;
  genres : JsObject;
  BOOKS_PER_PAGE : Z;
}.

(** What the script assumes of the data: a positive page size and
    identifiers that identify. *)
Definition wf_data (d : Data) : Prop :=
  0 < BOOKS_PER_PAGE d
  ∧ NoDup (book_id <$> books d)
  ∧ Forall (λ b, book_id b ≠ EmptyString) (books d).

#[export] Instance wf_data_dec d : Decision (wf_data d).
Proof. unfold wf_data. apply _. Defined.

(** ** A small catalogue

    Five books, three authors, three genres and a page of two: the data of
    the examples throughout the development. *)

Definition demo_books : list Book :=
  [ mkBook "b1" "Dune" "a1" "dune.jpg" "Arrakis." "1965-08-01" ["g1"; "g3"];
    mkBook "b2" "Dune Messiah" "a1" "messiah.jpg" "Twelve years on." "1969-10-15" ["g1"];
    mkBook "b3" "Emma" "a2" "emma.jpg" "Highbury." "1815-12-23" ["g2"; "g3"];
    mkBook "b4" "Persuasion" "a2" "persuasion.jpg" "Bath." "1817-12-20" ["g2"];
    mkBook "b5" "Neuromancer" "a3" "neuromancer.jpg" "The Sprawl." "1984-07-01" ["g1"] ].

Definition demo_data : Data :=
  {| books := demo_books;
     authors := [("a1", "Frank Herbert"); ("a2", "Jane Austen"); ("a3", "William Gibson")];
     genres := [("g1", "Science Fiction"); ("g2", "Romance"); ("g3", "Classic")];
     BOOKS_PER_PAGE := 2 |}.

(** ** Lemmas *)

Lemma objGet_Some_elem (o : JsObject) k v : objGet o k = Some v → (k, v) ∈ o.
Proof.
  induction o as [|[k' v'] o IH]; simpl; [done|].
  case_bool_decide; [intros [= ->]; subst|intros ?]; set_solver.
Qed.

Lemma objGet_None (o : JsObject) k : objGet o k = None ↔ k ∉ o.*1.
Proof.
  induction o as [|[k' v'] o IH]; simpl; [set_solver|].
  case_bool_decide; subst; [set_solver|]. rewrite IH. set_solver.
Qed.

(** With distinct keys every entry is what the property read returns. *)
Lemma objGet_elem (o : JsObject) k v :
  NoDup o.*1 → (k, v) ∈ o → objGet o k = Some v.
Proof.
  induction o as [|[k' v'] o IH]; simpl; [set_solver|].
  rewrite NoDup_cons. intros [Hk Hnd] [[= -> ->]|Hin]%elem_of_cons.
  - by rewrite bool_decide_eq_true_2.
  - rewrite bool_decide_eq_false_2; [by apply IH|].
    intros ->. apply Hk. apply list_elem_of_fmap. by exists (k, v).
Qed.

Lemma wf_data_nonneg d : wf_data d → 0 ≤ BOOKS_PER_PAGE d.
Proof. intros [? _]. lia. Qed.
#[export] Hint Resolve wf_data_nonneg : js.

Lemma demo_data_wf : wf_data demo_data.
Proof. by apply (bool_decide_unpack _). Qed.
