(* ===== verification/Dom.v ===== *)
(** * The document

    The part of the page that [src/scripts.js] reads or writes, one field
    per property the script touches.  The comment on a field gives the
    selector the script uses.  The markup itself is not part of the sources;
    [initial_document] is the state of a freshly parsed page in which every
    container is empty, every dialog closed and no listener registered. *)

From S2P Require Import Prelude JsString.

(** A [button] built by [createBookPreview]. *)
Record Element : Type := mkElement {
  tagName : string;
  classList : string;
  data_preview : string;
  innerHTML : string;
}.

(** An [option] of one of the two filter menus. *)
Record OptionElement : Type := mkOption {
  value : string;
  innerText : string;
}.

#[export] Instance Element_eq_dec : EqDecision Element.
Proof. solve_decision. Defined.

#[export] Instance OptionElement_eq_dec : EqDecision OptionElement.
Proof. solve_decision. Defined.

(** The list of previews and what stands below it. *)
Record ListView : Type := mkListView {
  (* children of [data-list-items] *)
  list_items : list Element;
  (* class list__message_show on [data-list-message] *)
  list_message_show : bool;
  (* [data-list-button].disabled *)
  list_button_disabled : bool;
  (* [data-list-button].innerHTML *)
  list_button_innerHTML : string;
}.

(** The detail overlay. *)
Record DetailView : Type := mkDetailView {
  (* [data-list-active].open *)
  list_active_open : bool;
  (* [data-list-blur].src *)
  list_blur_src : string;
  (* [data-list-image].src *)
  list_image_src : string;
  (* [data-list-title].innerText *)
  list_title : string;
  (* [data-list-subtitle].innerText *)
  list_subtitle : string;
  (* [data-list-description].innerText *)
  list_description : string;
  (* click listeners on [data-list-active] [data-close-button] *)
  close_listeners : nat;
}.

(** The search overlay. *)
Record SearchView : Type := mkSearchView {
  (* [data-search-overlay].open *)
  search_overlay_open : bool;
  (* children of [data-search-genres] *)
  search_genres : list OptionElement;
  (* children of [data-search-authors] *)
  search_authors : list OptionElement;
  (* [data-search-title] has received focus() *)
  search_title_focused : bool;
}.

(** The settings overlay and the two colours of the palette. *)
Record SettingsView : Type := mkSettingsView {
  (* [data-settings-overlay].open *)
  settings_overlay_open : bool;
  (* [data-settings-theme].value *)
  settings_theme : string;
  (* documentElement.style --color-dark *)
  color_dark : option string;
  (* documentElement.style --color-light *)
  color_light : option string;
}.

Record Document : Type := mkDocument {
  list_view : ListView;
  detail_view : DetailView;
  search_view : SearchView;
  settings_view : SettingsView;
  (* vertical scroll offset of the window, None when the script has not set it *)
  scroll_top : option Z;
}.

#[export] Instance ListView_eq_dec : EqDecision ListView.
Proof. solve_decision. Defined.
#[export] Instance DetailView_eq_dec : EqDecision DetailView.
Proof. solve_decision. Defined.
#[export] Instance SearchView_eq_dec : EqDecision SearchView.
Proof. solve_decision. Defined.
#[export] Instance SettingsView_eq_dec : EqDecision SettingsView.
Proof. solve_decision. Defined.
#[export] Instance Document_eq_dec : EqDecision Document.
Proof. solve_decision. Defined.

(** ** Updates of one sub-record *)

Definition with_list_view (f : ListView → ListView) (d : Document) : Document :=
  mkDocument (f (list_view d)) (detail_view d) (search_view d)
    (settings_view d) (scroll_top d).

Definition with_detail_view (f : DetailView → DetailView) (d : Document) : Document :=
  mkDocument (list_view d) (f (detail_view d)) (search_view d)
    (settings_view d) (scroll_top d).

Definition with_search_view (f : SearchView → SearchView) (d : Document) : Document :=
  mkDocument (list_view d) (detail_view d) (f (search_view d))
    (settings_view d) (scroll_top d).

Definition with_settings_view (f : SettingsView → SettingsView) (d : Document) : Document :=
  mkDocument (list_view d) (detail_view d) (search_view d)
    (f (settings_view d)) (scroll_top d).

Definition with_scroll_top (z : option Z) (d : Document) : Document :=
  mkDocument (list_view d) (detail_view d) (search_view d)
    (settings_view d) z.

(** ** Single property assignments *)

Definition set_list_items (l : list Element) (v : ListView) : ListView :=
  mkListView l (list_message_show v) (list_button_disabled v)
    (list_button_innerHTML v).

Definition set_list_message_show (b : bool) (v : ListView) : ListView :=
  mkListView (list_items v) b (list_button_disabled v)
    (list_button_innerHTML v).

Definition set_list_button_disabled (b : bool) (v : ListView) : ListView :=
  mkListView (list_items v) (list_message_show v) b (list_button_innerHTML v).

Definition set_list_button_innerHTML (s : string) (v : ListView) : ListView :=
  mkListView (list_items v) (list_message_show v) (list_button_disabled v) s.

Definition set_list_active_open (b : bool) (v : DetailView) : DetailView :=
  mkDetailView b (list_blur_src v) (list_image_src v) (list_title v)
    (list_subtitle v) (list_description v) (close_listeners v).

Definition set_search_overlay_open (b : bool) (v : SearchView) : SearchView :=
  mkSearchView b (search_genres v) (search_authors v) (search_title_focused v).

Definition set_search_genres (l : list OptionElement) (v : SearchView) : SearchView :=
  mkSearchView (search_overlay_open v) l (search_authors v)
    (search_title_focused v).

Definition set_search_authors (l : list OptionElement) (v : SearchView) : SearchView :=
  mkSearchView (search_overlay_open v) (search_genres v) l
    (search_title_focused v).

Definition set_search_title_focused (b : bool) (v : SearchView) : SearchView :=
  mkSearchView (search_overlay_open v) (search_genres v) (search_authors v) b.

Definition set_settings_overlay_open (b : bool) (v : SettingsView) : SettingsView :=
  mkSettingsView b (settings_theme v) (color_dark v) (color_light v).

Definition set_settings_theme (s : string) (v : SettingsView) : SettingsView :=
  mkSettingsView (settings_overlay_open v) s (color_dark v) (color_light v).

(** [documentElement.style.setProperty] on the two custom properties. *)
Definition set_color_dark (s : string) (v : SettingsView) : SettingsView :=
  mkSettingsView (settings_overlay_open v) (settings_theme v) (Some s)
    (color_light v).

Definition set_color_light (s : string) (v : SettingsView) : SettingsView :=
  mkSettingsView (settings_overlay_open v) (settings_theme v) (color_dark v)
    (Some s).

(** ** The page before the script runs *)

Definition initial_document : Document :=
  mkDocument
    (mkListView [] false false EmptyString)
    (mkDetailView false EmptyString EmptyString EmptyString EmptyString
       EmptyString 0)
    (mkSearchView false [] [] false)
    (mkSettingsView false EmptyString None None)
    None.

(** ** Tactics *)

(** Unfold the updates of the document down to record constructors. *)
Ltac dom_simpl :=
  cbv [with_list_view with_detail_view with_search_view with_settings_view
       with_scroll_top set_list_items set_list_message_show
       set_list_button_disabled set_list_button_innerHTML
       set_list_active_open set_search_overlay_open set_search_genres
       set_search_authors set_search_title_focused set_settings_overlay_open
       set_settings_theme set_color_dark set_color_light] in *;
  simpl in *.
