(* ===== verification/Render.v ===== *)
(** * Rendering

    The four functions of [src/scripts.js] that build elements and append
    them to the page: [createBookPreview], [renderBookPreviews],
    [renderGenres] and [renderAuthors].  A document fragment is the list of
    the elements appended to it so far; appending the fragment to a
    container moves them, in order, behind the container's children. *)

From Stdlib Require Import Ascii.
From S2P Require Import Prelude JsString Catalog Dom.
Set Warnings "-clear-no-such-hyp".

(** ** Template literals *)

(** The line feed and the double quote of the templates. *)
Definition nl : string := String "010"%char EmptyString.
Definition dq : string := String "034"%char EmptyString.

Fixpoint spaces (n : nat) : string :=
  match n with
  | O => EmptyString
  | S n' => String " "%char (spaces n')
  end.

(** A line of a multi-line template: the line break that ends the line
    above, the indentation, the text. *)
Definition line (indent : nat) (text : string) : string :=
  nl +:+ spaces indent +:+ text.

(** An attribute [name="v"]. *)
Definition attr (name v : string) : string :=
  name +:+ "=" +:+ dq +:+ v +:+ dq.

Section render.
Context (data : Data).

(** ** createBookPreview *)

Definition previewHTML (image title authorName : string) : string :=
  line 8 "<img"
  +:+ line 12 (attr "class" "preview__image")
  +:+ line 12 (attr "src" image)
  +:+ line 8 "/>"
  +:+ line 8 EmptyString
  +:+ line 8 ("<div " +:+ attr "class" "preview__info" +:+ ">")
  +:+ line 12 ("<h3 " +:+ attr "class" "preview__title" +:+ ">"
               +:+ title +:+ "</h3>")
  +:+ line 12 ("<div " +:+ attr "class" "preview__author" +:+ ">"
               +:+ authorName +:+ "</div>")
  +:+ line 8 "</div>"
  +:+ line 4 EmptyString.

Definition createBookPreview (book : Book) : Element :=
  {| tagName := "button";
     classList := "preview";
     data_preview := book_id book;
     innerHTML :=
       previewHTML (book_image book) (book_title book)
         (propToString (objGet (authors data) (book_author book))) |}.

(** ** renderBookPreviews *)

(** The loop: one element per book, appended to the fragment. *)
Fixpoint previewFragment (fragment : list Element) (bookList : list Book)
    : list Element :=
  match bookList with
  | [] => fragment
  | book :: rest => previewFragment (fragment ++ [createBookPreview book]) rest
  end.

Definition renderBookPreviews (bookList : list Book) (d : Document) : Document :=
  let fragment := previewFragment [] bookList in
  with_list_view (λ v, set_list_items (list_items v ++ fragment) v) d.

(** ** renderGenres and renderAuthors *)

(** The loop over [Object.entries]: one option per entry. *)
Fixpoint optionFragment (fragment : list OptionElement)
    (entries : list (string * string)) : list OptionElement :=
  match entries with
  | [] => fragment
  | (id, name) :: rest =>
      optionFragment (fragment ++ [{| value := id; innerText := name |}]) rest
  end.

Definition renderGenres (d : Document) : Document :=
  let firstGenreElement := {| value := "any"; innerText := "All Genres" |} in
  let genreHtml := optionFragment [firstGenreElement] (objEntries (genres data)) in
  with_search_view (λ v, set_search_genres (search_genres v ++ genreHtml) v) d.

Definition renderAuthors (d : Document) : Document :=
  let firstAuthorElement := {| value := "any"; innerText := "All Authors" |} in
  let authorsHtml := optionFragment [firstAuthorElement] (objEntries (authors data)) in
  with_search_view (λ v, set_search_authors (search_authors v ++ authorsHtml) v) d.

(** ** Reference definitions *)

Definition previews (bookList : list Book) : list Element :=
  createBookPreview <$> bookList.

Definition options (firstText : string) (o : JsObject) : list OptionElement :=
  {| value := "any"; innerText := firstText |}
  :: ((λ e, {| value := e.1; innerText := e.2 |}) <$> o).

(** ** Lemmas *)

Lemma previewFragment_app fragment bookList :
  previewFragment fragment bookList = fragment ++ previews bookList.
Proof.
  revert fragment. induction bookList as [|b l IH]; intros fragment; simpl.
  - by rewrite app_nil_r.
  - by rewrite IH, <-app_assoc.
Qed.

Lemma previewFragment_nil bookList : previewFragment [] bookList = previews bookList.
Proof. apply previewFragment_app. Qed.

Lemma optionFragment_app fragment entries :
  optionFragment fragment entries =
    fragment ++ ((λ e, {| value := e.1; innerText := e.2 |}) <$> entries).
Proof.
  revert fragment. induction entries as [|[id name] l IH]; intros fragment; simpl.
  - by rewrite app_nil_r.
  - by rewrite IH, <-app_assoc.
Qed.

Lemma previews_app l1 l2 : previews (l1 ++ l2) = previews l1 ++ previews l2.
Proof. apply fmap_app. Qed.

Lemma length_previews l : length (previews l) = length l.
Proof. apply length_fmap. Qed.

Lemma previews_take n l : previews (take n l) = take n (previews l).
Proof. apply fmap_take. Qed.

Lemma previews_slice l a b : previews (slice l a b) = slice (previews l) a b.
Proof. unfold previews. by rewrite slice_fmap. Qed.

Lemma data_preview_previews l : data_preview <$> previews l = book_id <$> l.
Proof. unfold previews. rewrite <-list_fmap_compose. done. Qed.

(** [renderBookPreviews] appends the previews of the books, in order, and
    touches nothing else. *)
Lemma renderBookPreviews_spec bookList d :
  renderBookPreviews bookList d =
    with_list_view (λ v, set_list_items (list_items v ++ previews bookList) v) d.
Proof. unfold renderBookPreviews. by rewrite previewFragment_nil. Qed.

Lemma list_items_renderBookPreviews bookList d :
  list_items (list_view (renderBookPreviews bookList d)) =
    list_items (list_view d) ++ previews bookList.
Proof. by rewrite renderBookPreviews_spec. Qed.

Lemma renderGenres_spec d :
  search_genres (search_view (renderGenres d)) =
    search_genres (search_view d) ++ options "All Genres" (genres data).
Proof. unfold renderGenres. simpl. by rewrite optionFragment_app. Qed.

Lemma renderAuthors_spec d :
  search_authors (search_view (renderAuthors d)) =
    search_authors (search_view d) ++ options "All Authors" (authors data).
Proof. unfold renderAuthors. simpl. by rewrite optionFragment_app. Qed.

(** ** Rendering, stated *)

(** C38: [renderBookPreviews] appends one preview button per book, in the
    order of the list, behind what the container already holds; a preview
    carries the identifier of its book in [data-preview], the class
    [preview], and the template filled with the image, the title and the
    name the author table gives for the author, or [undefined]. *)
Theorem renderBookPreviews_eq bookList d :
  renderBookPreviews bookList d =
    with_list_view (λ v,
      set_list_items
        (list_items v
         ++ ((λ book,
                mkElement "button" "preview" (book_id book)
                  (previewHTML (book_image book) (book_title book)
                     (default "undefined"
                        (objGet (authors data) (book_author book)))))
             <$> bookList)) v) d.
Proof. apply renderBookPreviews_spec. Qed.

(** C39: the two menus are filled with an [any] option first and then one
    option per entry of the table, value the identifier and text the name,
    in the order [Object.entries] gives them. *)
Theorem render_menus_eq d :
  search_genres (search_view (renderAuthors (renderGenres d))) =
    search_genres (search_view d)
    ++ mkOption "any" "All Genres"
       :: ((λ e, mkOption e.1 e.2) <$> genres data)
  ∧ search_authors (search_view (renderAuthors (renderGenres d))) =
      search_authors (search_view d)
      ++ mkOption "any" "All Authors"
         :: ((λ e, mkOption e.1 e.2) <$> authors data).
Proof.
  split; [|by rewrite renderAuthors_spec].
  unfold renderAuthors. simpl. apply renderGenres_spec.
Qed.

End render.

#[export] Hint Rewrite @length_previews : js_rw.
