(* ===== verification/Filter.v ===== *)
(** * The search filter

    The body of [handleSearchFormSubmit] up to the call of [updateBookList]:
    the form data as an object, the loop over the catalogue, the inner loop
    over a book's genres and the three-part condition.  The filters are the
    object [Object.fromEntries(formData)], a finite map from field names to
    strings; a field the form does not have reads as [undefined] ([None]).

    Reading [filters.title.trim()] throws a [TypeError] when the form has no
    [title] field, so the loop returns a [Result].  The reference definition
    [filterBooks] is a plain [filter] with a decidable criterion. *)

From S2P Require Import Prelude JsString Catalog.
Set Warnings "-clear-no-such-hyp".

(** ** The loops of the source *)

(** The inner loop: [genreMatch] is the flag, set before the loop to
    [filters.genre === 'any']; the loop leaves at the first iteration that
    finds the flag set. *)
Fixpoint genreLoop (genre : option string) (bookGenres : list string)
    (genreMatch : bool) : bool :=
  match bookGenres with
  | [] => genreMatch
  | singleGenre :: rest =>
      if genreMatch then genreMatch
      else genreLoop genre rest
             (if Some singleGenre === genre then true else genreMatch)
  end.

Definition genreMatches (genre : option string) (book : Book) : bool :=
  genreLoop genre (book_genres book) (genre === Some "any").

(** The first conjunct of the condition, once [filters.title] is a string. *)
Definition titleMatches (title : string) (book : Book) : bool :=
  (trim title === EmptyString)
  || includes (toLowerCase (book_title book)) (toLowerCase title).

(** The second conjunct. *)
Definition authorMatches (author : option string) (book : Book) : bool :=
  (author === Some "any") || (Some (book_author book) === author).

(** One iteration of the outer loop up to the test: the genre loop runs
    first, then the condition, whose first operand dereferences
    [filters.title]. *)
Definition bookMatches (filters : gmap string string) (book : Book) : Result bool :=
  let genreMatch := genreMatches (filters !! "genre") book in
  match filters !! "title" with
  | None => Throw (TypeError "Cannot read properties of undefined (reading 'trim')")
  | Some title =>
      Ok (titleMatches title book
          && authorMatches (filters !! "author") book
          && genreMatch)
  end.

(** The outer loop, with [result] the array the matches are pushed on. *)
Fixpoint searchLoop (filters : gmap string string) (bookList : list Book)
    (result : list Book) : Result (list Book) :=
  match bookList with
  | [] => Ok result
  | book :: rest =>
      ok ← bookMatches filters book;
      searchLoop filters rest (if ok : bool then result ++ [book] else result)
  end.

Definition searchBooks (data : Data) (filters : gmap string string)
    : Result (list Book) :=
  searchLoop filters (books data) [].

(** ** Reference definition *)

Definition TitleCriterion (title : string) (book : Book) : Prop :=
  blank title = true ∨ Substring (toLowerCase title) (toLowerCase (book_title book)).

Definition AuthorCriterion (author : option string) (book : Book) : Prop :=
  author = Some "any" ∨ author = Some (book_author book).

Definition GenreCriterion (genre : option string) (book : Book) : Prop :=
  genre = Some "any" ∨ ∃ g, genre = Some g ∧ g ∈ book_genres book.

Definition Criteria (title : string) (author genre : option string)
    (book : Book) : Prop :=
  TitleCriterion title book ∧ AuthorCriterion author book
  ∧ GenreCriterion genre book.

#[export] Instance GenreCriterion_dec genre book : Decision (GenreCriterion genre book).
Proof.
  refine (cast_if (decide (genre = Some "any" ∨ genre ∈ Some <$> book_genres book)));
    unfold GenreCriterion; rewrite list_elem_of_fmap in *; naive_solver.
Defined.

#[export] Instance Criteria_dec title author genre book :
  Decision (Criteria title author genre book).
Proof. unfold Criteria, TitleCriterion, AuthorCriterion. apply _. Defined.

Definition filterBooks (title : string) (author genre : option string)
    (bookList : list Book) : list Book :=
  filter (Criteria title author genre) bookList.

(** Two form objects that agree on the three fields the handler reads. *)
Definition same_filters (f1 f2 : gmap string string) : Prop :=
  f1 !! "title" = f2 !! "title" ∧ f1 !! "author" = f2 !! "author"
  ∧ f1 !! "genre" = f2 !! "genre".

(** The form of the page: three fields. *)
Definition mkFilters (title author genre : string) : gmap string string :=
  {[ "title" := title; "author" := author; "genre" := genre ]}.

(** ** Lemmas: the three conjuncts *)

Lemma genreLoop_true genre gs : genreLoop genre gs true = true.
Proof. by destruct gs. Qed.

Lemma genreLoop_spec genre gs m :
  genreLoop genre gs m = m || bool_decide (genre ∈ Some <$> gs).
Proof.
  revert m. induction gs as [|g gs IH]; intros [|]; simpl; try done.
  rewrite IH. clear IH. case_bool_decide; simpl; bool_iff; set_solver.
Qed.

Lemma genreMatches_iff genre book :
  genreMatches genre book = true ↔ GenreCriterion genre book.
Proof.
  unfold genreMatches, GenreCriterion. rewrite genreLoop_spec.
  rewrite orb_true_iff, !bool_decide_eq_true, list_elem_of_fmap. naive_solver.
Qed.

Lemma titleMatches_iff title book :
  titleMatches title book = true ↔ TitleCriterion title book.
Proof.
  unfold titleMatches, TitleCriterion.
  by rewrite orb_true_iff, bool_decide_eq_true, trim_empty_iff, includes_Substring.
Qed.

Lemma authorMatches_iff author book :
  authorMatches author book = true ↔ AuthorCriterion author book.
Proof.
  unfold authorMatches, AuthorCriterion.
  rewrite orb_true_iff, !bool_decide_eq_true. naive_solver.
Qed.

Lemma bookMatches_Some filters title book :
  filters !! "title" = Some title →
  bookMatches filters book =
    Ok (bool_decide (Criteria title (filters !! "author") (filters !! "genre") book)).
Proof.
  intros Ht. unfold bookMatches. rewrite Ht. f_equal. bool_iff.
  rewrite titleMatches_iff, authorMatches_iff, genreMatches_iff.
  unfold Criteria. tauto.
Qed.

Lemma bookMatches_None filters book :
  filters !! "title" = None → ∃ e, bookMatches filters book = Throw e.
Proof. intros Ht. unfold bookMatches. rewrite Ht. eauto. Qed.

Lemma searchLoop_filterBooks filters title bookList result :
  filters !! "title" = Some title →
  searchLoop filters bookList result =
    Ok (result ++ filterBooks title (filters !! "author") (filters !! "genre") bookList).
Proof.
  intros Ht. revert result. unfold filterBooks.
  induction bookList as [|b l IH]; intros result; simpl.
  - by rewrite app_nil_r.
  - rewrite (bookMatches_Some _ _ _ Ht). simpl. rewrite IH.
    rewrite filter_cons. case_bool_decide; case_decide; try done.
    by rewrite <-app_assoc.
Qed.

Lemma searchLoop_no_title filters book rest result :
  filters !! "title" = None →
  ∃ e, searchLoop filters (book :: rest) result = Throw e.
Proof.
  intros Ht. simpl. destruct (bookMatches_None filters book Ht) as [e ->].
  by exists e.
Qed.

(** ** The conjuncts, stated *)

(** C24: the genre loop with its early exit computes membership: the flag
    ends up set exactly when it was set before the loop or the wanted genre
    is among the genres of the book. *)
Theorem genreLoop_membership genre bookGenres genreMatch :
  genreLoop genre bookGenres genreMatch = true
  ↔ genreMatch = true ∨ ∃ g, genre = Some g ∧ g ∈ bookGenres.
Proof.
  rewrite genreLoop_spec, orb_true_iff, bool_decide_eq_true, list_elem_of_fmap.
  naive_solver.
Qed.

(** C25: the title test of the condition holds exactly when the criterion
    is blank or, both sides in lower case, the criterion occurs somewhere in
    the title of the book. *)
Theorem titleMatches_substring title book :
  titleMatches title book = true
  ↔ blank title = true
    ∨ ∃ pre post,
        toLowerCase (book_title book) = pre +:+ toLowerCase title +:+ post.
Proof. apply titleMatches_iff. Qed.

(** C26: the title test ignores the case of the criterion and of the title
    of the book. *)
Theorem titleMatches_ignores_case title book :
  titleMatches (toLowerCase title) book = titleMatches title book
  ∧ titleMatches title
      (mkBook (book_id book) (toLowerCase (book_title book)) (book_author book)
         (book_image book) (book_description book) (book_published book)
         (book_genres book)) = titleMatches title book.
Proof.
  split; apply eq_iff_eq_true; rewrite !titleMatches_iff;
    unfold TitleCriterion; simpl;
    by rewrite ?blank_toLowerCase, ?toLowerCase_idemp.
Qed.

(** The handler reads three fields of the form and nothing else. *)
#[export] Instance same_filters_equiv : Equivalence same_filters.
Proof.
  split.
  - by intros f.
  - by intros f g (?&?&?).
  - intros f g h (?&?&?) (?&?&?). repeat split; congruence.
Qed.

#[export] Instance bookMatches_proper :
  Proper (same_filters ==> eq ==> eq) bookMatches.
Proof.
  intros f g (Ht & Ha & Hg) b ? <-. unfold bookMatches. by rewrite Ht, Ha, Hg.
Qed.

#[export] Instance searchLoop_proper :
  Proper (same_filters ==> eq ==> eq ==> eq) searchLoop.
Proof.
  intros f g Hfg l ? <-. induction l as [|b l IH]; intros r ? <-; simpl; [done|].
  rewrite (bookMatches_proper f g Hfg b b eq_refl).
  destruct (bookMatches g b) as [ok|]; simpl; [|done]. by apply IH.
Qed.

(** ** The search as a whole *)

Section search.
Context (data : Data).
Implicit Types (filters : gmap string string) (r : list Book).

(** C1: when the form has a [title] field, the loop of
    [handleSearchFormSubmit] computes exactly the books of the catalogue
    that satisfy the three criteria, in catalogue order. *)
Theorem searchBooks_filterBooks filters title :
  filters !! "title" = Some title →
  searchBooks data filters =
    Ok (filterBooks title (filters !! "author") (filters !! "genre") (books data)).
Proof. intros Ht. unfold searchBooks. by rewrite (searchLoop_filterBooks _ title). Qed.

(** Whatever the form holds, a result of the search is the reference filter
    of the catalogue: without a [title] field the loop only returns on an
    empty catalogue. *)
Lemma searchBooks_Ok_filter filters r :
  searchBooks data filters = Ok r →
  r = filterBooks (default EmptyString (filters !! "title"))
        (filters !! "author") (filters !! "genre") (books data).
Proof.
  destruct (filters !! "title") as [title|] eqn:Ht; simpl.
  - unfold searchBooks. rewrite (searchLoop_filterBooks _ title) by done.
    by intros [= <-].
  - unfold searchBooks. destruct (books data) as [|b l]; [by intros [= <-]|].
    destruct (searchLoop_no_title filters b l [] Ht) as [e ->]. done.
Qed.

(** C7: the search returns normally exactly when the form has a [title]
    field or the catalogue is empty; otherwise the handler throws before it
    changes anything. *)
Theorem searchBooks_Ok_iff filters :
  isOk (searchBooks data filters) = true
  ↔ is_Some (filters !! "title") ∨ books data = [].
Proof.
  unfold searchBooks. destruct (filters !! "title") as [title|] eqn:Ht.
  - rewrite (searchLoop_filterBooks _ title) by done. naive_solver.
  - destruct (books data) as [|b l]; [naive_solver|].
    destruct (searchLoop_no_title filters b l [] Ht) as [e ->]. simpl.
    split; [done|]. intros [[? [=]]|[=]].
Qed.

(** C20: the result of a search is a subsequence of the catalogue: no book is
    invented, duplicated or reordered. *)
Theorem searchBooks_sublist filters r :
  searchBooks data filters = Ok r → r `sublist_of` books data.
Proof. intros ->%searchBooks_Ok_filter. apply sublist_filter. Qed.

(** C21: a book is in the result exactly when it is in the catalogue and
    passes the title, author and genre criteria. *)
Theorem elem_of_searchBooks filters title r book :
  filters !! "title" = Some title →
  searchBooks data filters = Ok r →
  book ∈ r ↔
    book ∈ books data
    ∧ Criteria title (filters !! "author") (filters !! "genre") book.
Proof.
  intros Ht ->%searchBooks_Ok_filter. rewrite Ht. simpl.
  unfold filterBooks. rewrite list_elem_of_filter. tauto.
Qed.

(** C22: with an empty or blank title and [any] for author and genre the
    search returns the whole catalogue unchanged. *)
Theorem searchBooks_neutral filters title :
  filters !! "title" = Some title → blank title = true →
  filters !! "author" = Some "any" → filters !! "genre" = Some "any" →
  searchBooks data filters = Ok (books data).
Proof.
  intros Ht Hb Ha Hg. unfold searchBooks.
  rewrite (searchLoop_filterBooks _ title) by done. rewrite Ha, Hg. simpl.
  f_equal. unfold filterBooks. apply filter_all, Forall_forall. intros b _.
  repeat split; by left.
Qed.

(** C23: searching within a result with the same criteria returns the same
    result. *)
Theorem searchBooks_idemp filters r :
  searchBooks data filters = Ok r → searchLoop filters r [] = Ok r.
Proof.
  intros Hr. pose proof (searchBooks_Ok_filter _ _ Hr) as ->.
  destruct (filters !! "title") as [title|] eqn:Ht; simpl in *.
  - rewrite (searchLoop_filterBooks _ title) by done. simpl. f_equal.
    unfold filterBooks. by apply list_filter_filter_l.
  - unfold searchBooks in Hr. destruct (books data) as [|b l]; [done|].
    destruct (searchLoop_no_title filters b l [] Ht) as [e He]. congruence.
Qed.

(** The search reads only the [title], [author] and [genre] fields of the
    form: two forms that agree on them give the same result. *)
Lemma searchBooks_same_filters filters1 filters2 :
  same_filters filters1 filters2 →
  searchBooks data filters1 = searchBooks data filters2.
Proof. intros Hf. unfold searchBooks. by rewrite Hf. Qed.

End search.

(** ** The theorems on the small catalogue *)

Lemma searchBooks_filterBooks_witness :
  mkFilters "dune" "any" "any" !! "title" = Some "dune"
  ∧ searchBooks demo_data (mkFilters "dune" "any" "any") =
      Ok (filterBooks "dune" (mkFilters "dune" "any" "any" !! "author")
            (mkFilters "dune" "any" "any" !! "genre") (books demo_data)).
Proof.
  split; [reflexivity|].
  apply (searchBooks_filterBooks demo_data (mkFilters "dune" "any" "any") "dune").
  reflexivity.
Defined.

Lemma searchBooks_sublist_witness :
  searchBooks demo_data (mkFilters "dune" "any" "any") = Ok (take 2 demo_books)
  ∧ take 2 demo_books `sublist_of` books demo_data.
Proof.
  split; [reflexivity|].
  apply (searchBooks_sublist demo_data (mkFilters "dune" "any" "any")).
  reflexivity.
Defined.

Lemma elem_of_searchBooks_witness :
  demo_books !!! 1%nat ∈ take 2 demo_books
  ↔ demo_books !!! 1%nat ∈ books demo_data
    ∧ Criteria "dune" (mkFilters "dune" "any" "any" !! "author")
        (mkFilters "dune" "any" "any" !! "genre") (demo_books !!! 1%nat).
Proof.
  apply (elem_of_searchBooks demo_data (mkFilters "dune" "any" "any") "dune");
    reflexivity.
Defined.

Lemma searchBooks_neutral_witness :
  searchBooks demo_data (mkFilters "  " "any" "any") = Ok (books demo_data).
Proof.
  apply (searchBooks_neutral demo_data (mkFilters "  " "any" "any") "  ");
    reflexivity.
Defined.

Lemma searchBooks_idemp_witness :
  searchLoop (mkFilters "e" "a2" "g2") (slice demo_books 2 4) [] =
    Ok (slice demo_books 2 4).
Proof.
  apply (searchBooks_idemp demo_data (mkFilters "e" "a2" "g2")). reflexivity.
Defined.

(** A field the script does not read changes nothing. *)
Example searchBooks_extra_field :
  searchBooks demo_data (<["page" := "3"]> (mkFilters "dune" "any" "any")) =
    searchBooks demo_data (mkFilters "dune" "any" "any").
Proof. apply (searchBooks_same_filters demo_data). by repeat split. Qed.

(** The scenario of the specification: the criterion [dune] finds
    [Dune Messiah]. *)
Example scenario_case_insensitive :
  book_title <$> filterBooks "dune" (Some "any") (Some "any") demo_books =
    ["Dune"; "Dune Messiah"]
  ∧ searchBooks demo_data (mkFilters "DUNE m" "any" "any") =
      Ok [demo_books !!! 1%nat].
Proof. vm_compute. done. Qed.

(** White space around a criterion that is not blank is part of it. *)
Example scenario_untrimmed_title :
  searchBooks demo_data (mkFilters " dune" "any" "any") = Ok [].
Proof. vm_compute. done. Qed.
