(* ===== verification/Pagination.v ===== *)
(** * Pagination

    The two module variables of [src/scripts.js], [page] and [matches],
    together with the document form the state of the program.  This file
    models the three functions that move the list forward:
    [updateBookList] (a new match set replaces the list),
    [updateListButton] (the label of the show more button) and
    [handleListButtonClick] (the next window is appended). *)

From S2P Require Import Prelude JsString Catalog Dom Render.
Set Warnings "-clear-no-such-hyp".

(** The state of the program. *)
Record State : Type := mkState {
  page : Z;
  matches : list Book;
  doc : Document;
}.

#[export] Instance State_eq_dec : EqDecision State.
Proof. solve_decision. Defined.

Definition with_doc (f : Document → Document) (s : State) : State :=
  mkState (page s) (matches s) (f (doc s)).

(** Two states that agree on what the list depends on: [page], [matches]
    and the list with its message and button. *)
Definition same_list (s s' : State) : Prop :=
  page s = page s' ∧ matches s = matches s'
  ∧ list_view (doc s) = list_view (doc s').

Section pagination.
Context (data : Data).

(** The expression [matches.length - (page * BOOKS_PER_PAGE)]. *)
Definition leftOver (s : State) : Z :=
  arrayLength (matches s) - page s * BOOKS_PER_PAGE data.

(** The template of the button's content. *)
Definition listButtonHTML (remaining : Z) : string :=
  line 8 "<span>Show more</span>"
  +:+ line 8 ("<span " +:+ attr "class" "list__remaining" +:+ "> ("
              +:+ numberToString remaining +:+ ")</span>")
  +:+ line 4 EmptyString.

Definition updateListButton (s : State) : State :=
  let remaining := if bool_decide (leftOver s > 0) then leftOver s else 0 in
  with_doc (with_list_view (set_list_button_innerHTML (listButtonHTML remaining))) s.

Definition updateBookList (result : list Book) (s : State) : State :=
  let s1 := mkState 1 result (doc s) in
  let s2 :=
    if bool_decide (arrayLength result < 1)
    then with_doc (with_list_view (set_list_message_show true)) s1
    else with_doc (with_list_view (set_list_message_show false)) s1 in
  let s3 := with_doc (with_list_view (set_list_items [])) s2 in
  let s4 := with_doc (renderBookPreviews data (slice result 0 (BOOKS_PER_PAGE data))) s3 in
  let s5 :=
    with_doc (with_list_view
                (set_list_button_disabled (bool_decide (leftOver s4 < 1)))) s4 in
  let s6 := updateListButton s5 in
  let s7 := with_doc (with_scroll_top (Some 0)) s6 in
  with_doc (with_search_view (set_search_overlay_open false)) s7.

Definition handleListButtonClick (s : State) : State :=
  let fragment :=
    previewFragment data []
      (slice (matches s) (page s * BOOKS_PER_PAGE data)
         ((page s + 1) * BOOKS_PER_PAGE data)) in
  let s1 :=
    with_doc (with_list_view (λ v, set_list_items (list_items v ++ fragment) v)) s in
  let s2 := mkState (page s1 + 1) (matches s1) (doc s1) in
  updateListButton s2.

(** ** Reference definitions *)

(** The number of matches not yet shown. *)
Definition remainingCount (s : State) : Z := Z.max 0 (leftOver s).

(** The previews the list should hold: those of the first
    [page * BOOKS_PER_PAGE] matches. *)
Definition shown (s : State) : list Element :=
  previews data (slice (matches s) 0 (page s * BOOKS_PER_PAGE data)).

(** The list shows what it should. *)
Definition list_in_sync (s : State) : Prop :=
  list_items (list_view (doc s)) = shown s.

#[export] Instance list_in_sync_dec s : Decision (list_in_sync s).
Proof. unfold list_in_sync. apply _. Defined.

(** The label of the button tells how many matches are left. *)
Definition label_in_sync (s : State) : Prop :=
  list_button_innerHTML (list_view (doc s)) =
    listButtonHTML (remainingCount s).

(** [n] clicks on the button. *)
Definition clicks (n : nat) (s : State) : State :=
  Nat.iter n handleListButtonClick s.

(** The number of pages a list of [len] books fills. *)
Definition pagesNeeded (len : Z) : Z :=
  (len + BOOKS_PER_PAGE data - 1) / BOOKS_PER_PAGE data.

End pagination.

(** ** Lemmas: the handlers in closed form *)

Section pagination.
Context (data : Data).
Implicit Types (s : State) (result : list Book).

#[local] Abbreviation BPP := (BOOKS_PER_PAGE data).

#[export] Instance same_list_equiv : Equivalence same_list.
Proof.
  split; [done|by intros ?? (?&?&?)|].
  intros ??? (?&?&?) (?&?&?). repeat split; congruence.
Qed.

#[export] Instance leftOver_proper : Proper (same_list ==> (=)) (leftOver data).
Proof. intros s s' (Hp & Hm & _). unfold leftOver. by rewrite Hp, Hm. Qed.

#[export] Instance remainingCount_proper :
  Proper (same_list ==> (=)) (remainingCount data).
Proof. intros s s' Hs. unfold remainingCount. by rewrite Hs. Qed.

#[export] Instance shown_proper : Proper (same_list ==> (=)) (shown data).
Proof. intros s s' (Hp & Hm & _). unfold shown. by rewrite Hp, Hm. Qed.

#[export] Instance list_in_sync_proper :
  Proper (same_list ==> iff) (list_in_sync data).
Proof.
  intros s s' Hs. unfold list_in_sync. rewrite (shown_proper _ _ Hs).
  by destruct Hs as (_ & _ & ->).
Qed.

#[export] Instance label_in_sync_proper :
  Proper (same_list ==> iff) (label_in_sync data).
Proof.
  intros s s' Hs. unfold label_in_sync. rewrite (remainingCount_proper _ _ Hs).
  by destruct Hs as (_ & _ & ->).
Qed.

Lemma same_list_with_doc f s :
  list_view (f (doc s)) = list_view (doc s) → same_list (with_doc f s) s.
Proof. done. Qed.

Lemma updateListButton_eq s :
  updateListButton data s =
    with_doc (with_list_view
      (set_list_button_innerHTML (listButtonHTML (remainingCount data s)))) s.
Proof.
  unfold updateListButton, remainingCount. do 4 f_equal. js_cases.
Qed.

Lemma updateBookList_unfold result s :
  updateBookList data result s =
    mkState 1 result
      (mkDocument
         (mkListView (previews data (slice result 0 BPP))
            (bool_decide (result = []))
            (bool_decide (arrayLength result ≤ BPP))
            (listButtonHTML (Z.max 0 (arrayLength result - BPP))))
         (detail_view (doc s))
         (set_search_overlay_open false (search_view (doc s)))
         (settings_view (doc s))
         (Some 0)).
Proof.
  unfold updateBookList. rewrite updateListButton_eq.
  unfold with_doc, with_list_view, with_search_view, with_scroll_top,
    remainingCount, leftOver. simpl.
  rewrite previewFragment_nil. simpl.
  assert (bool_decide (arrayLength result < 1) = bool_decide (result = [])) as Hb.
  { apply bool_decide_ext. rewrite <-arrayLength_0.
    pose proof (arrayLength_nonneg result). lia. }
  rewrite <-Hb. case_bool_decide as H1; simpl; rewrite Z.mul_1_l;
    unfold set_list_button_innerHTML; simpl; repeat f_equal;
    apply bool_decide_ext; lia.
Qed.

Lemma handleListButtonClick_unfold s :
  handleListButtonClick data s =
    mkState (page s + 1) (matches s)
      (with_list_view (λ v,
         mkListView
           (list_items v
            ++ previews data (slice (matches s) (page s * BPP) ((page s + 1) * BPP)))
           (list_message_show v) (list_button_disabled v)
           (listButtonHTML (Z.max 0 (arrayLength (matches s) - (page s + 1) * BPP))))
         (doc s)).
Proof.
  unfold handleListButtonClick. rewrite updateListButton_eq.
  by rewrite previewFragment_nil.
Qed.

#[local] Hint Rewrite updateBookList_unfold handleListButtonClick_unfold : js_rw.

Lemma clicks_0 s : clicks data 0 s = s.
Proof. done. Qed.

Lemma clicks_S n s :
  clicks data (S n) s = handleListButtonClick data (clicks data n s).
Proof. done. Qed.

#[local] Hint Rewrite clicks_S : js_rw.

Lemma page_clicks n s : page (clicks data n s) = page s + Z.of_nat n.
Proof. induction n as [|n IH]; [rewrite clicks_0; lia|]. js_simpl. lia. Qed.

Lemma matches_clicks n s : matches (clicks data n s) = matches s.
Proof. induction n as [|n IH]; [done|]. by js_simpl. Qed.

#[local] Hint Rewrite page_clicks matches_clicks : js_rw.

Lemma leftOver_clicks n s :
  leftOver data (clicks data n s) = leftOver data s - Z.of_nat n * BPP.
Proof. unfold leftOver. rewrite page_clicks, matches_clicks. lia. Qed.

Lemma remainingCount_nonneg s : 0 ≤ remainingCount data s.
Proof. unfold remainingCount. lia. Qed.

Lemma remainingCount_0 s :
  remainingCount data s = 0 ↔ arrayLength (matches s) ≤ page s * BPP.
Proof. unfold remainingCount, leftOver. lia. Qed.

(** ** The list and the state stay in sync *)

Lemma updateBookList_in_sync result s :
  list_in_sync data (updateBookList data result s).
Proof.
  unfold list_in_sync, shown. by js_simpl.
Qed.

Lemma handleListButtonClick_in_sync s :
  0 ≤ BPP → 0 ≤ page s →
  list_in_sync data s → list_in_sync data (handleListButtonClick data s).
Proof.
  intros HP Hp Hs. unfold list_in_sync, shown in *. js_simpl.
  rewrite Hs, <-previews_app.
  f_equal. apply slice_window. nia.
Qed.

Lemma clicks_in_sync n s :
  0 ≤ BPP → 0 ≤ page s →
  list_in_sync data s → list_in_sync data (clicks data n s).
Proof.
  intros HP Hp Hs. induction n as [|n IH]; [done|].
  rewrite clicks_S. apply handleListButtonClick_in_sync; [done| |done].
  rewrite page_clicks. lia.
Qed.

(** ** The label of the button *)

Lemma updateListButton_label s : label_in_sync data (updateListButton data s).
Proof. by rewrite updateListButton_eq. Qed.

Lemma updateBookList_label result s :
  label_in_sync data (updateBookList data result s).
Proof.
  unfold label_in_sync, remainingCount, leftOver. by js_simpl.
Qed.

Lemma handleListButtonClick_label s :
  label_in_sync data (handleListButtonClick data s).
Proof. unfold label_in_sync. by js_simpl. Qed.

(** ** Counting *)

Lemma pagesNeeded_spec len :
  0 < BPP → len ≤ pagesNeeded data len * BPP.
Proof.
  intros HP. unfold pagesNeeded.
  pose proof (Z.mul_succ_div_gt (len + BPP - 1) BPP HP). nia.
Qed.

Lemma remainingCount_clicks n s :
  remainingCount data (clicks data n s) =
    Z.max 0 (arrayLength (matches s) - (page s + Z.of_nat n) * BPP).
Proof. unfold remainingCount. rewrite leftOver_clicks. unfold leftOver. lia. Qed.

Lemma length_shown s :
  0 ≤ BPP → 0 ≤ page s →
  arrayLength (shown data s) =
    Z.min (page s * BPP) (arrayLength (matches s)).
Proof.
  intros HP Hp. unfold shown, previews, arrayLength. rewrite length_fmap.
  pose proof (length_slice (matches s) 0 (page s * BPP)) as H.
  unfold arrayLength in H. rewrite H by nia. nia.
Qed.

(** The number of previews in a list that is in step with the state is the
    smaller of [page * BOOKS_PER_PAGE] and the number of matches. *)
Lemma length_list_items s :
  0 ≤ BPP → 0 ≤ page s → list_in_sync data s →
  arrayLength (list_items (list_view (doc s))) =
    Z.min (page s * BPP) (arrayLength (matches s)).
Proof. intros ?? ->. by apply length_shown. Qed.

(** The window a click appends holds at most one page. *)
Lemma length_window s :
  0 ≤ BPP → 0 ≤ page s →
  arrayLength (slice (matches s) (page s * BPP) ((page s + 1) * BPP)) ≤ BPP.
Proof. intros. rewrite length_slice by nia. nia. Qed.

(** A click never changes the disabled flag of the button. *)
Lemma handleListButtonClick_disabled s :
  list_button_disabled (list_view (doc (handleListButtonClick data s))) =
    list_button_disabled (list_view (doc s)).
Proof. by rewrite handleListButtonClick_unfold. Qed.

Lemma clicks_disabled n s :
  list_button_disabled (list_view (doc (clicks data n s))) =
    list_button_disabled (list_view (doc s)).
Proof.
  induction n as [|n IH]; [done|].
  by rewrite clicks_S, handleListButtonClick_disabled.
Qed.

(** ** The handlers, stated *)

(** C4: [updateBookList] as one assignment: page 1, the new matches, the
    list replaced by the previews of the first page, the no-results message
    shown exactly for an empty result, the button disabled exactly when one
    page holds everything, its label, the window scrolled to the top and the
    search overlay closed; the detail and settings views are untouched. *)
Theorem updateBookList_eq result s :
  updateBookList data result s =
    mkState 1 result
      (mkDocument
         (mkListView (previews data (slice result 0 BPP))
            (bool_decide (result = []))
            (bool_decide (arrayLength result ≤ BPP))
            (listButtonHTML (Z.max 0 (arrayLength result - BPP))))
         (detail_view (doc s))
         (set_search_overlay_open false (search_view (doc s)))
         (settings_view (doc s))
         (Some 0)).
Proof. apply updateBookList_unfold. Qed.

(** C5: [handleListButtonClick] as one assignment: the previews of the next
    window of matches are appended, [page] goes up by one and the label is
    recomputed; the disabled flag of the button and everything else keep
    their values. *)
Theorem handleListButtonClick_eq s :
  handleListButtonClick data s =
    mkState (page s + 1) (matches s)
      (with_list_view (λ v,
         mkListView
           (list_items v
            ++ previews data (slice (matches s) (page s * BPP) ((page s + 1) * BPP)))
           (list_message_show v) (list_button_disabled v)
           (listButtonHTML (Z.max 0 (arrayLength (matches s) - (page s + 1) * BPP))))
         (doc s)).
Proof. apply handleListButtonClick_unfold. Qed.

(** C28: a click on show more keeps the list in step with the state: if the
    list held the previews of the first [page * BOOKS_PER_PAGE] matches
    before, it does so for the new page. *)
Theorem handleListButtonClick_keeps_sync s :
  0 ≤ BPP → 0 ≤ page s →
  list_in_sync data s → list_in_sync data (handleListButtonClick data s).
Proof. apply handleListButtonClick_in_sync. Qed.

(** C9: after a search the number of matches still hidden is zero once
    show more has been clicked as many times as the result has pages, and it
    stays zero with every further click. *)
Theorem remaining_exhausted result s n :
  0 < BPP →
  pagesNeeded data (arrayLength result) ≤ Z.of_nat n →
  remainingCount data (clicks data n (updateBookList data result s)) = 0.
Proof.
  intros HP Hn. rewrite remainingCount_clicks. js_simpl.
  pose proof (pagesNeeded_spec (arrayLength result) HP). nia.
Qed.

(** C27: once the pages cover the result, the list holds the previews of
    every match, in order. *)
Theorem all_shown result s n :
  0 < BPP →
  arrayLength result ≤ (1 + Z.of_nat n) * BPP →
  list_items (list_view (doc (clicks data n (updateBookList data result s)))) =
    previews data result.
Proof.
  intros HP Hn.
  rewrite (clicks_in_sync n (updateBookList data result s));
    [|lia|by js_simpl|apply updateBookList_in_sync].
  unfold shown. js_simpl. by rewrite slice_all.
Qed.

(** C29: [updateBookList] disables the button exactly when nothing is left to
    show, and shows the no-results message exactly for an empty result. *)
Theorem updateBookList_flags result s :
  (list_button_disabled (list_view (doc (updateBookList data result s))) = true
   ↔ remainingCount data (updateBookList data result s) = 0)
  ∧ (list_message_show (list_view (doc (updateBookList data result s))) = true
     ↔ result = []).
Proof.
  rewrite remainingCount_0, updateBookList_unfold. simpl.
  rewrite !bool_decide_eq_true. split; [lia|done].
Qed.

(** C30: after a search the disabled flag of the button stays what
    [updateBookList] computed from the first page, however many times show
    more is clicked: a result larger than a page leaves the button enabled
    after its last window has been shown. *)
Theorem show_more_disabled result s n :
  list_button_disabled
    (list_view (doc (clicks data n (updateBookList data result s)))) =
    bool_decide (arrayLength result ≤ BPP).
Proof. rewrite clicks_disabled. by js_simpl. Qed.

End pagination.

#[export] Hint Rewrite @updateBookList_unfold @handleListButtonClick_unfold : js_rw.
#[export] Hint Rewrite @page_clicks @matches_clicks : js_rw.
#[export] Hint Resolve updateBookList_in_sync handleListButtonClick_in_sync : js.
#[export] Hint Resolve clicks_in_sync updateBookList_label : js.
#[export] Hint Resolve handleListButtonClick_label remainingCount_nonneg : js.

(** ** The theorems on the small catalogue *)

Lemma handleListButtonClick_keeps_sync_witness :
  list_in_sync demo_data
    (handleListButtonClick demo_data
       (updateBookList demo_data demo_books (mkState 1 [] initial_document))).
Proof.
  apply handleListButtonClick_keeps_sync; [done|done|].
  apply updateBookList_in_sync.
Defined.

Lemma remaining_exhausted_witness :
  remainingCount demo_data
    (clicks demo_data 2
       (updateBookList demo_data (take 3 demo_books)
          (mkState 1 [] initial_document))) = 0.
Proof. apply remaining_exhausted; done. Defined.

Lemma all_shown_witness :
  list_items (list_view (doc
    (clicks demo_data 2
       (updateBookList demo_data demo_books (mkState 1 [] initial_document))))) =
    previews demo_data demo_books.
Proof. apply all_shown; done. Defined.
