(* ===== verification/Selection.v ===== *)
(** * Selection

    [handleBookPreviewClick]: the walk along the event path that recovers
    the clicked preview, the scan of the catalogue for its identifier, the
    assignments that fill and open the detail overlay, and the listener the
    handler registers on the close button each time it opens the overlay.

    A node of the event path is represented by what the handler reads of
    it, [node?.dataset?.preview]: a string, or [undefined] for a node
    without that attribute (or without a dataset, such as the window). *)

From Stdlib Require Import Ascii.
From S2P Require Import Prelude JsString Catalog Dom Render Pagination.
Set Warnings "-clear-no-such-hyp".

(** What the handler needs from the host besides the DOM: the year, in
    local time, of the date a string denotes; [None] stands for [NaN], the
    answer for a string that is not a date. *)
Class Host : Type := {
  getFullYear : string → option Z;
}.

Record PathNode : Type := mkPathNode {
  dataset_preview : option string;
}.

#[export] Instance PathNode_eq_dec : EqDecision PathNode.
Proof. solve_decision. Defined.

(** A value used as a condition: a string is truthy unless empty,
    [undefined] is falsy. *)
Definition truthy (o : option string) : bool :=
  match o with
  | Some s => negb (s === EmptyString)
  | None => false
  end.

Section selection.
Context `{Host} (data : Data).

(** The inner loop: [result] is [null] until a book with the identifier is
    met; the loop leaves at the first iteration that finds it set. *)
Fixpoint findBook (preview : option string) (bookList : list Book)
    (result : option Book) : option Book :=
  match bookList with
  | [] => result
  | singleBook :: rest =>
      if bool_decide (is_Some result) then result
      else findBook preview rest
             (if Some (book_id singleBook) === preview
              then Some singleBook else result)
  end.

(** The outer loop over the path. *)
Fixpoint pathLoop (pathArray : list PathNode) (active : option Book)
    : option Book :=
  match pathArray with
  | [] => active
  | node :: rest =>
      if bool_decide (is_Some active) then active
      else pathLoop rest
             (if truthy (dataset_preview node)
              then findBook (dataset_preview node) (books data) None
              else active)
  end.

Definition detailSubtitle (active : Book) : string :=
  propToString (objGet (authors data) (book_author active))
  +:+ " (" +:+ nanToString (getFullYear (book_published active)) +:+ ")".

(** The assignments of the branch [if (active)]. *)
Definition showDetail (active : Book) (v : DetailView) : DetailView :=
  {| list_active_open := true;
     list_blur_src := book_image active;
     list_image_src := book_image active;
     list_title := book_title active;
     list_subtitle := detailSubtitle active;
     list_description := book_description active;
     close_listeners := S (close_listeners v) |}.

Definition handleBookPreviewClick (pathArray : list PathNode) (s : State) : State :=
  match pathLoop pathArray None with
  | Some active => with_doc (with_detail_view (showDetail active)) s
  | None => s
  end.

(** The listener registered on the close button. *)
Definition closeListener (s : State) : State :=
  with_doc (with_detail_view (set_list_active_open false)) s.

(** A click on the close button runs every listener registered so far. *)
Definition handleCloseButtonClick (s : State) : State :=
  Nat.iter (close_listeners (detail_view (doc s))) closeListener s.

(** ** Reference definitions *)

(** The book an identifier denotes: the first of the catalogue that has it. *)
Definition resolve (bookList : list Book) (id : string) : option Book :=
  snd <$> list_find (λ b, book_id b = id) bookList.

(** What one node of the path contributes: the book its identifier
    denotes, when it carries a non-empty one. *)
Definition resolveNode (node : PathNode) : option Book :=
  if truthy (dataset_preview node)
  then resolve (books data) (default EmptyString (dataset_preview node))
  else None.

(** The event path of a click on a preview button: the nodes inside the
    button, the button, the list container and its ancestors. *)
Definition pathOfPreview (inner : nat) (e : Element) (outer : nat) : list PathNode :=
  replicate inner (mkPathNode None)
  ++ [mkPathNode (Some (data_preview e))]
  ++ replicate outer (mkPathNode None).

End selection.

Section selection_facts.
Context `{Host} (data : Data).
Implicit Types (s : State) (b : Book) (l : list Book) (path : list PathNode).

(** ** Lemmas: the scan of the catalogue *)

Lemma findBook_Some preview l b : findBook preview l (Some b) = Some b.
Proof. by destruct l. Qed.

Lemma resolve_nil id : resolve [] id = None.
Proof. done. Qed.

Lemma resolve_cons b l id :
  resolve (b :: l) id = if book_id b === id then Some b else resolve l id.
Proof.
  unfold resolve. simpl. case_decide; case_bool_decide; try done.
  destruct (list_find _ l) as [[i x]|]; done.
Qed.

Lemma findBook_resolve id l : findBook (Some id) l None = resolve l id.
Proof.
  induction l as [|b l IH]; [done|].
  rewrite resolve_cons. simpl.
  assert ((Some (book_id b) === Some id) = (book_id b === id)) as ->
    by (apply bool_decide_ext; naive_solver).
  case_bool_decide; [apply findBook_Some|done].
Qed.

Lemma resolve_Some l id b :
  resolve l id = Some b → b ∈ l ∧ book_id b = id.
Proof.
  unfold resolve. destruct (list_find _ l) as [[i x]|] eqn:Hf; [|done].
  intros [= <-]. apply list_find_Some in Hf as (Hl & Hid & _).
  split; [by eapply list_elem_of_lookup_2|done].
Qed.

Lemma resolve_None l id : resolve l id = None ↔ id ∉ book_id <$> l.
Proof.
  unfold resolve. rewrite fmap_None, list_find_None, Forall_forall.
  rewrite list_elem_of_fmap. naive_solver.
Qed.

(** With distinct identifiers a book of the list resolves to itself. *)
Lemma resolve_elem l b :
  NoDup (book_id <$> l) → b ∈ l → resolve l (book_id b) = Some b.
Proof.
  induction l as [|b' l IH]; [by intros _ ?%elem_of_nil|].
  rewrite fmap_cons, NoDup_cons, resolve_cons.
  intros [Hb' Hnd] [->|Hin]%elem_of_cons.
  - by rewrite bool_decide_eq_true_2.
  - rewrite bool_decide_eq_false_2; [by apply IH|].
    intros Heq. apply Hb'. rewrite Heq. by apply list_elem_of_fmap_2.
Qed.

(** ** Lemmas: the walk along the path *)

Lemma pathLoop_Some path b : pathLoop data path (Some b) = Some b.
Proof. by destruct path. Qed.

Lemma pathLoop_cons node path :
  pathLoop data (node :: path) None =
    match resolveNode data node with
    | Some b => Some b
    | None => pathLoop data path None
    end.
Proof.
  simpl. unfold resolveNode. destruct (dataset_preview node) as [id|]; simpl; [|done].
  destruct (negb _); [|done]. rewrite findBook_resolve.
  destruct (resolve _ id); [apply pathLoop_Some|done].
Qed.

Lemma pathLoop_None_node path :
  Forall (λ node, resolveNode data node = None) path →
  pathLoop data path None = None.
Proof.
  induction 1 as [|node path Hn _ IH]; [done|].
  by rewrite pathLoop_cons, Hn.
Qed.

Lemma pathLoop_app_None path1 path2 :
  Forall (λ node, resolveNode data node = None) path1 →
  pathLoop data (path1 ++ path2) None = pathLoop data path2 None.
Proof.
  induction 1 as [|node path Hn _ IH]; [done|].
  by rewrite <-app_comm_cons, pathLoop_cons, Hn.
Qed.

Lemma resolveNode_plain : resolveNode data (mkPathNode None) = None.
Proof. done. Qed.

Lemma pathLoop_pathOfPreview inner e outer :
  pathLoop data (pathOfPreview inner e outer) None =
    resolveNode data (mkPathNode (Some (data_preview e))).
Proof.
  unfold pathOfPreview. rewrite pathLoop_app_None
    by (apply Forall_replicate, resolveNode_plain).
  rewrite <-app_comm_cons, pathLoop_cons.
  destruct (resolveNode data _); [done|]. simpl.
  apply pathLoop_None_node, Forall_replicate, resolveNode_plain.
Qed.

Lemma pathLoop_head path :
  pathLoop data path None = head (omap (resolveNode data) path).
Proof.
  induction path as [|node path IH]; [done|].
  rewrite pathLoop_cons. simpl. by destruct (resolveNode data node).
Qed.

(** ** Lemmas: closing *)

Lemma closeListener_idemp s : closeListener (closeListener s) = closeListener s.
Proof. done. Qed.

Lemma close_listeners_closeListener s :
  close_listeners (detail_view (doc (closeListener s))) =
    close_listeners (detail_view (doc s)).
Proof. done. Qed.

Lemma iter_closeListener n s :
  Nat.iter (S n) closeListener s = closeListener s.
Proof.
  induction n as [|n IH]; [done|].
  change (closeListener (Nat.iter (S n) closeListener s) = closeListener s).
  by rewrite IH.
Qed.

Lemma handleCloseButtonClick_unfold s :
  handleCloseButtonClick s =
    if bool_decide (close_listeners (detail_view (doc s)) = 0%nat)
    then s else closeListener s.
Proof.
  unfold handleCloseButtonClick.
  destruct (close_listeners _) as [|n]; [done|].
  by rewrite iter_closeListener.
Qed.

(** ** The handler *)

(** C32: [handleBookPreviewClick] opens the detail overlay on the book of
    the first node of the event path whose [data-preview] is a non-empty
    identifier of the catalogue, and does nothing when the path has no such
    node. *)
Theorem handleBookPreviewClick_first path s :
  handleBookPreviewClick data path s =
    match head (omap (resolveNode data) path) with
    | Some active => with_doc (with_detail_view (showDetail data active)) s
    | None => s
    end.
Proof. unfold handleBookPreviewClick. by rewrite pathLoop_head. Qed.

Lemma handleBookPreviewClick_preview b inner outer s :
  wf_data data → b ∈ books data →
  handleBookPreviewClick data
    (pathOfPreview inner (createBookPreview data b) outer) s =
    with_doc (with_detail_view (showDetail data b)) s.
Proof.
  intros (_ & Hnd & Hne) Hb. unfold handleBookPreviewClick.
  rewrite pathLoop_pathOfPreview. unfold resolveNode. simpl.
  rewrite Forall_forall in Hne.
  rewrite bool_decide_eq_false_2 by (by apply Hne). simpl.
  by rewrite resolve_elem.
Qed.

(** C6: a click on the preview of a book of the catalogue opens the detail
    overlay with that book's image (twice), title, author name with the year
    of publication and description, wherever inside the button the click
    lands, and registers one more listener on the close button. *)
Theorem click_preview_opens b inner outer s :
  wf_data data → b ∈ books data →
  handleBookPreviewClick data
    (pathOfPreview inner (createBookPreview data b) outer) s =
    with_doc (with_detail_view (λ v,
      mkDetailView true (book_image b) (book_image b) (book_title b)
        (propToString (objGet (authors data) (book_author b))
         +:+ " (" +:+ nanToString (getFullYear (book_published b)) +:+ ")")
        (book_description b) (S (close_listeners v)))) s.
Proof. apply handleBookPreviewClick_preview. Qed.

(** C10: a click whose path carries no identifier of the catalogue changes
    nothing: the overlay stays as it is and no listener is added. *)
Theorem click_unknown path s :
  Forall (λ node, ∀ id, dataset_preview node = Some id →
                        id ∉ book_id <$> books data) path →
  handleBookPreviewClick data path s = s.
Proof.
  intros Hpath. unfold handleBookPreviewClick.
  rewrite pathLoop_None_node; [done|].
  eapply Forall_impl; [exact Hpath|]. intros [[id|]] Hn; unfold resolveNode; simpl.
  - destruct (negb _); [|done]. by apply resolve_None, Hn.
  - done.
Qed.

(** C33: a click on the close button does nothing when no listener is
    registered, that is when the overlay has never been opened; otherwise,
    however many listeners run, it leaves the overlay with [open] false and
    with the image, title, subtitle, description and listeners it had, and
    changes nothing else. *)
Theorem handleCloseButtonClick_eq s :
  handleCloseButtonClick s =
    if bool_decide (close_listeners (detail_view (doc s)) = 0%nat) then s
    else
      mkState (page s) (matches s)
        (mkDocument (list_view (doc s))
           (mkDetailView false
              (list_blur_src (detail_view (doc s)))
              (list_image_src (detail_view (doc s)))
              (list_title (detail_view (doc s)))
              (list_subtitle (detail_view (doc s)))
              (list_description (detail_view (doc s)))
              (close_listeners (detail_view (doc s))))
           (search_view (doc s)) (settings_view (doc s)) (scroll_top (doc s))).
Proof. rewrite handleCloseButtonClick_unfold. by case_bool_decide. Qed.

(** Every click that opens the overlay registers one more listener on the
    close button. *)
Lemma handleBookPreviewClick_listeners path s active :
  pathLoop data path None = Some active →
  close_listeners (detail_view (doc (handleBookPreviewClick data path s))) =
    S (close_listeners (detail_view (doc s))).
Proof. intros Hp. unfold handleBookPreviewClick. by rewrite Hp. Qed.

End selection_facts.

#[export] Hint Rewrite @handleCloseButtonClick_unfold : js_rw.
#[export] Hint Rewrite @resolve_nil @resolve_cons : js_rw.

(** ** A host for the examples

    Dates written year first, four digits; the local time zone is UTC. *)

Definition digitValue (c : ascii) : option Z :=
  let n := Z.of_N (N_of_ascii c) in
  if bool_decide (48 ≤ n ≤ 57) then Some (n - 48) else None.

Definition isoYear (s : string) : option Z :=
  match s with
  | String a (String b (String c (String d _))) =>
      a ← digitValue a; b ← digitValue b; c ← digitValue c; d ← digitValue d;
      Some (1000 * a + 100 * b + 10 * c + d)
  | _ => None
  end.

Definition demo_host : Host := {| getFullYear := isoYear |}.

(** ** The theorems on the small catalogue *)

#[local] Existing Instance demo_host.

Lemma click_preview_opens_witness :
  handleBookPreviewClick demo_data
    (pathOfPreview 2 (createBookPreview demo_data (demo_books !!! 2%nat)) 5)
    (mkState 1 demo_books initial_document) =
    with_doc (with_detail_view (λ v,
      mkDetailView true "emma.jpg" "emma.jpg" "Emma" "Jane Austen (1815)"
        "Highbury." (S (close_listeners v))))
      (mkState 1 demo_books initial_document).
Proof.
  refine (click_preview_opens demo_data (demo_books !!! 2%nat) 2 5 _
            demo_data_wf _).
  by apply (bool_decide_unpack _).
Defined.

Lemma click_unknown_witness :
  handleBookPreviewClick demo_data
    [mkPathNode None; mkPathNode (Some "nonexistent-id"); mkPathNode None]
    (mkState 1 demo_books initial_document) =
    mkState 1 demo_books initial_document.
Proof.
  apply (click_unknown demo_data).
  repeat constructor; intros id [= <-]; by apply (bool_decide_unpack _).
Defined.

(** The subtitle of the overlay on the small catalogue. *)
Example detailSubtitle_demo :
  detailSubtitle demo_data (demo_books !!! 2%nat) =
    "Jane Austen (1815)".
Proof. reflexivity. Qed.
