(* ===== verification/Theme.v ===== *)
(** * Theme and overlays

    [handleThemeToggle], the two cancel handlers and the three anonymous
    listeners of [src/scripts.js]: opening the search and settings overlays
    and submitting the settings form.  The theme is the value of the select
    element [data-settings-theme]; the palette is the pair of custom
    properties [--color-dark] and [--color-light] of the root element. *)

From S2P Require Import Prelude JsString Catalog Dom Render Pagination.
Set Warnings "-clear-no-such-hyp".

(** The two colours of the script. *)
Definition white : string := "255, 255, 255".
Definition ink : string := "10, 10, 20".

(** The two calls of [setProperty] of the night branch, and of the day
    branch. *)
Definition nightPalette (v : SettingsView) : SettingsView :=
  set_color_light ink (set_color_dark white v).

Definition dayPalette (v : SettingsView) : SettingsView :=
  set_color_light white (set_color_dark ink v).

Definition handleThemeToggle (s : State) : State :=
  let theme := settings_theme (settings_view (doc s)) in
  if theme === "night"
  then with_doc (with_settings_view nightPalette) s
  else with_doc (with_settings_view dayPalette) s.

Definition handleSearchCancel (s : State) : State :=
  with_doc (with_search_view (set_search_overlay_open false)) s.

Definition handleSettingsCancel (s : State) : State :=
  with_doc (with_settings_view (set_settings_overlay_open false)) s.

(** The listener of [data-header-search]: open the overlay, focus the
    title field. *)
Definition handleHeaderSearchClick (s : State) : State :=
  let s1 := with_doc (with_search_view (set_search_overlay_open true)) s in
  with_doc (with_search_view (set_search_title_focused true)) s1.

(** The listener of [data-header-settings]. *)
Definition handleHeaderSettingsClick (s : State) : State :=
  with_doc (with_settings_view (set_settings_overlay_open true)) s.

(** The listener of the settings form: apply the theme, close the overlay. *)
Definition handleSettingsSubmit (s : State) : State :=
  let s1 := handleThemeToggle s in
  with_doc (with_settings_view (set_settings_overlay_open false)) s1.

(** The user picks a value in the theme select; the script reads it on the
    next submit. *)
Definition selectTheme (value : string) (s : State) : State :=
  with_doc (with_settings_view (set_settings_theme value)) s.

(** ** Reference definitions *)

Inductive Theme : Type := Day | Night.

#[export] Instance Theme_eq_dec : EqDecision Theme.
Proof. solve_decision. Defined.

(** The theme a value of the select stands for: everything but [night] is
    day. *)
Definition themeOfValue (value : string) : Theme :=
  if value === "night" then Night else Day.

(** The palette of a theme. *)
Definition paletteOf (t : Theme) : option string * option string :=
  match t with
  | Night => (Some white, Some ink)
  | Day => (Some ink, Some white)
  end.

(** The palette on display. *)
Definition palette (s : State) : option string * option string :=
  (color_dark (settings_view (doc s)), color_light (settings_view (doc s))).

(** ** Lemmas *)

Section theme_facts.
Implicit Types (s : State).

Lemma palette_nightPalette v :
  (color_dark (nightPalette v), color_light (nightPalette v)) = paletteOf Night.
Proof. done. Qed.

Lemma palette_dayPalette v :
  (color_dark (dayPalette v), color_light (dayPalette v)) = paletteOf Day.
Proof. done. Qed.

Lemma handleThemeToggle_palette s :
  palette (handleThemeToggle s) =
    paletteOf (themeOfValue (settings_theme (settings_view (doc s)))).
Proof. unfold handleThemeToggle, themeOfValue. by case_bool_decide. Qed.

Lemma handleThemeToggle_theme s :
  settings_theme (settings_view (doc (handleThemeToggle s))) =
    settings_theme (settings_view (doc s)).
Proof. unfold handleThemeToggle. by case_bool_decide. Qed.

(** The handlers of this file leave the list, the detail overlay, [page]
    and [matches] alone. *)
Definition same_browsing (s s' : State) : Prop :=
  page s' = page s ∧ matches s' = matches s
  ∧ list_view (doc s') = list_view (doc s)
  ∧ detail_view (doc s') = detail_view (doc s).

#[export] Instance same_browsing_refl : Reflexive same_browsing.
Proof. by intros s. Qed.

#[export] Instance same_browsing_trans : Transitive same_browsing.
Proof. intros s1 s2 s3 (?&?&?&?) (?&?&?&?). repeat split; congruence. Qed.

Lemma handleThemeToggle_browsing s : same_browsing s (handleThemeToggle s).
Proof. unfold handleThemeToggle. by case_bool_decide. Qed.

Lemma handleSettingsSubmit_browsing s : same_browsing s (handleSettingsSubmit s).
Proof. unfold handleSettingsSubmit, handleThemeToggle. by case_bool_decide. Qed.

(** C34: submitting the settings form puts on display the palette of the
    theme the select stands for, night for the value [night] and day for
    every other value, closes the settings overlay and keeps the select. *)
Theorem handleSettingsSubmit_eq s :
  let t := themeOfValue (settings_theme (settings_view (doc s))) in
  handleSettingsSubmit s =
    with_doc (with_settings_view (λ v,
      mkSettingsView false (settings_theme v) (paletteOf t).1 (paletteOf t).2)) s.
Proof.
  unfold handleSettingsSubmit, handleThemeToggle, themeOfValue.
  by case_bool_decide.
Qed.

(** Choosing a value in the theme select changes neither colour: the
    palette follows the select only when the form is submitted. *)
Lemma selectTheme_palette value s : palette (selectTheme value s) = palette s.
Proof. done. Qed.

(** The two colours of the palette are distinct after a toggle. *)
Lemma handleThemeToggle_contrast s :
  color_dark (settings_view (doc (handleThemeToggle s)))
  ≠ color_light (settings_view (doc (handleThemeToggle s))).
Proof. unfold handleThemeToggle. by case_bool_decide. Qed.

End theme_facts.
