(* ===== verification/App.v ===== *)
(** * The program

    The top level of [src/scripts.js]: the initial values of the module
    variables, [initializePage], [handleSearchFormSubmit] (the search loop of
    [Filter.v] followed by [updateBookList]) and the registration of the
    listeners, which becomes the function [handle] from events to handlers.

    A run of the program is a sequence of events.  An event can only occur
    when the element it comes from lets it through: a disabled button
    dispatches no click.  The handler of an event runs to completion; when
    it throws, the exception is reported by the host and the state stays as
    the handler left it, which for the one throwing handler is the state
    before the event. *)

From S2P Require Import Prelude JsString Catalog Dom Render.
From S2P Require Import Filter Pagination Selection Theme.
Set Warnings "-clear-no-such-hyp".

(** The events the script listens to, and the one user action it observes
    without listening (a choice in the theme select). *)
Inductive Event : Type :=
  | SearchSubmit (filters : gmap string string)
  | ListButtonClick
  | ListItemsClick (path : list PathNode)
  | SearchCancelClick
  | SettingsCancelClick
  | HeaderSearchClick
  | HeaderSettingsClick
  | SettingsSubmit
  | CloseButtonClick
  | ThemeSelect (value : string).

Section app.
Context `{Host} (data : Data).

(** [let page = 1; let matches = books], over the page as loaded. *)
Definition initial_state : State := mkState 1 (books data) initial_document.

(** The text [initializePage] gives the button. *)
Definition initialButtonText : string :=
  "Show more ("
  +:+ numberToString (arrayLength (books data) - BOOKS_PER_PAGE data) +:+ ")".

(** [prefersDark] is the value of
    [window.matchMedia && window.matchMedia('(prefers-color-scheme: dark)').matches]. *)
Definition initializePage (prefersDark : bool) (s : State) : State :=
  let s1 := with_doc (renderBookPreviews data (slice (matches s) 0 (BOOKS_PER_PAGE data))) s in
  let s2 := with_doc (renderGenres data) s1 in
  let s3 := with_doc (renderAuthors data) s2 in
  let s4 :=
    if prefersDark
    then with_doc (with_settings_view (λ v, nightPalette (set_settings_theme "night" v))) s3
    else with_doc (with_settings_view (λ v, dayPalette (set_settings_theme "day" v))) s3 in
  let s5 := with_doc (with_list_view (set_list_button_innerHTML initialButtonText)) s4 in
  with_doc (with_list_view
              (set_list_button_disabled (bool_decide (leftOver data s5 > 0)))) s5.

(** The state when the script has run to its last line. *)
Definition boot (prefersDark : bool) : State :=
  initializePage prefersDark initial_state.

Definition handleSearchFormSubmit (filters : gmap string string) (s : State)
    : Result State :=
  result ← searchBooks data filters;
  Ok (updateBookList data result s).

(** The listeners, by event. *)
Definition handle (e : Event) (s : State) : Result State :=
  match e with
  | SearchSubmit filters => handleSearchFormSubmit filters s
  | ListButtonClick => Ok (handleListButtonClick data s)
  | ListItemsClick path => Ok (handleBookPreviewClick data path s)
  | SearchCancelClick => Ok (handleSearchCancel s)
  | SettingsCancelClick => Ok (handleSettingsCancel s)
  | HeaderSearchClick => Ok (handleHeaderSearchClick s)
  | HeaderSettingsClick => Ok (handleHeaderSettingsClick s)
  | SettingsSubmit => Ok (handleSettingsSubmit s)
  | CloseButtonClick => Ok (handleCloseButtonClick s)
  | ThemeSelect value => Ok (selectTheme value s)
  end.

(** The state after the event: that of the handler, or the old one when
    the handler threw. *)
Definition dispatch (e : Event) (s : State) : State :=
  match handle e s with
  | Ok s' => s'
  | Throw _ => s
  end.

(** Whether the page lets the event happen. *)
Definition enabled (e : Event) (s : State) : bool :=
  match e with
  | ListButtonClick => negb (list_button_disabled (list_view (doc s)))
  | _ => true
  end.

Inductive step : State → Event → State → Prop :=
  | step_event s e : enabled e s = true → step s e (dispatch e s).

(** The states the program can be in. *)
Inductive reachable (prefersDark : bool) : State → Prop :=
  | reachable_boot : reachable prefersDark (boot prefersDark)
  | reachable_step s e s' :
      reachable prefersDark s → step s e s' → reachable prefersDark s'.

(** ** Reference definitions *)

(** The theme of the preference of the user agent. *)
Definition themeOfPreference (dark : bool) : Theme := if dark then Night else Day.

Definition valueOfTheme (t : Theme) : string :=
  match t with
  | Night => "night"
  | Day => "day"
  end.

(** What holds of the state whatever the page size. *)
Record Inv (s : State) : Prop := mkInv {
  inv_page : 1 ≤ page s;
  inv_matches : matches s `sublist_of` books data;
  inv_message : list_message_show (list_view (doc s)) = true → matches s = [];
  inv_close :
    list_active_open (detail_view (doc s)) = true →
    (0 < close_listeners (detail_view (doc s)))%nat;
  inv_palette : ∃ t, palette s = paletteOf t;
  inv_genres :
    search_genres (search_view (doc s)) = options "All Genres" (genres data);
  inv_authors :
    search_authors (search_view (doc s)) = options "All Authors" (authors data);
}.

(** The label is the one of start-up, untouched, or the one
    [updateListButton] computes. *)
Definition label_ok (s : State) : Prop :=
  (list_button_innerHTML (list_view (doc s)) = initialButtonText
   ∧ page s = 1 ∧ matches s = books data)
  ∨ label_in_sync data s.

(** Whether the event is a search. *)
Definition is_search (e : Event) : bool :=
  match e with
  | SearchSubmit _ => true
  | _ => false
  end.

(** The events whose handlers write [page], [matches] or the list. *)
Definition changes_list (e : Event) : bool :=
  match e with
  | SearchSubmit _ | ListButtonClick => true
  | _ => false
  end.

(** Whether the event is a click in the list that finds a book. *)
Definition opens (e : Event) : bool :=
  match e with
  | ListItemsClick path => bool_decide (is_Some (pathLoop data path None))
  | _ => false
  end.

(** A run: the events that are enabled when their turn comes are
    dispatched, the others do not happen. *)
Fixpoint run (events : list Event) (s : State) : State :=
  match events with
  | [] => s
  | e :: rest => run rest (if enabled e s then dispatch e s else s)
  end.

End app.

(** ** Lemmas *)

Section app_facts.
Context `{Host} (data : Data).
Implicit Types (s : State) (e : Event) (dark : bool).

#[local] Abbreviation BPP := (BOOKS_PER_PAGE data).

Lemma boot_unfold dark :
  boot data dark =
    mkState 1 (books data)
      (mkDocument
         (mkListView (previews data (slice (books data) 0 BPP)) false
            (bool_decide (BPP < arrayLength (books data)))
            (initialButtonText data))
         (detail_view initial_document)
         (mkSearchView false (options "All Genres" (genres data))
            (options "All Authors" (authors data)) false)
         (mkSettingsView false (valueOfTheme (themeOfPreference dark))
            (paletteOf (themeOfPreference dark)).1
            (paletteOf (themeOfPreference dark)).2)
         None).
Proof.
  unfold boot, initializePage, initial_state, with_doc, leftOver,
    renderBookPreviews, renderGenres, renderAuthors.
  destruct dark; simpl; rewrite previewFragment_nil, !optionFragment_app; simpl;
    dom_simpl; repeat f_equal; apply bool_decide_ext; lia.
Qed.

#[local] Hint Rewrite boot_unfold : js_rw.

Lemma Inv_boot dark : Inv data (boot data dark).
Proof.
  split; js_simpl; try done.
  exists (themeOfPreference dark). by destruct dark.
Qed.

Lemma Inv_updateBookList result s :
  result `sublist_of` books data → Inv data s → Inv data (updateBookList data result s).
Proof.
  intros Hr [].
  split; js_simpl; try done.
  by intros ?%bool_decide_eq_true.
Qed.

Lemma Inv_handleListButtonClick s :
  Inv data s → Inv data (handleListButtonClick data s).
Proof.
  intros []. split; js_simpl; try done. lia.
Qed.

Lemma Inv_handleBookPreviewClick path s :
  Inv data s → Inv data (handleBookPreviewClick data path s).
Proof.
  intros []. unfold handleBookPreviewClick.
  destruct (pathLoop data path None); [|done].
  split; simpl; try done. lia.
Qed.

Lemma Inv_handleCloseButtonClick s : Inv data s → Inv data (handleCloseButtonClick s).
Proof.
  intros []. js_simpl. case_bool_decide; [done|]. split; simpl; done.
Qed.

Lemma Inv_handleSearchFormSubmit filters s s' :
  Inv data s → handleSearchFormSubmit data filters s = Ok s' → Inv data s'.
Proof.
  intros Hs. unfold handleSearchFormSubmit.
  destruct (searchBooks data filters) as [r|] eqn:Hr; [|done].
  intros [= <-]. apply Inv_updateBookList; [|done].
  apply searchBooks_Ok_filter in Hr as ->. apply sublist_filter.
Qed.

#[local] Hint Resolve Inv_boot Inv_handleListButtonClick : js.
#[local] Hint Resolve Inv_handleBookPreviewClick Inv_handleCloseButtonClick : js.
#[local] Hint Resolve Inv_handleSearchFormSubmit : js.

(** A handler that leaves browsing alone and keeps the menus preserves the
    invariant as soon as it leaves a palette on display. *)
Lemma Inv_same_browsing s s' :
  same_browsing s s' →
  search_genres (search_view (doc s')) = search_genres (search_view (doc s)) →
  search_authors (search_view (doc s')) = search_authors (search_view (doc s)) →
  (∃ t, palette s' = paletteOf t) →
  Inv data s → Inv data s'.
Proof.
  intros (Hp & Hm & Hl & Hd) Hg Ha Hpal [].
  split; rewrite ?Hp, ?Hm, ?Hl, ?Hd, ?Hg, ?Ha; done.
Qed.

(** The handlers that open or close an overlay or move the select change
    nothing the invariant reads. *)
Lemma Inv_frame s s' :
  page s' = page s → matches s' = matches s →
  list_view (doc s') = list_view (doc s) →
  detail_view (doc s') = detail_view (doc s) →
  search_genres (search_view (doc s')) = search_genres (search_view (doc s)) →
  search_authors (search_view (doc s')) = search_authors (search_view (doc s)) →
  palette s' = palette s →
  Inv data s → Inv data s'.
Proof.
  intros ???? Hg Ha Hpal Hs. apply (Inv_same_browsing s); try done.
  rewrite Hpal. apply (inv_palette _ _ Hs).
Qed.

Lemma Inv_dispatch e s : Inv data s → Inv data (dispatch data e s).
Proof.
  intros Hs. unfold dispatch.
  destruct e; simpl; try (by apply (Inv_frame s)); eauto with js.
  - destruct (handleSearchFormSubmit data filters s) eqn:Hf; eauto with js.
  - apply (Inv_same_browsing s); try done.
    + apply handleSettingsSubmit_browsing.
    + unfold handleSettingsSubmit, handleThemeToggle. by case_bool_decide.
    + unfold handleSettingsSubmit, handleThemeToggle. by case_bool_decide.
    + exists (themeOfValue (settings_theme (settings_view (doc s)))).
      by rewrite <-handleThemeToggle_palette.
Qed.

(** The induction principle of the invariants: a property of the state
    after start-up that every handler preserves holds of every reachable
    state. *)
Lemma reachable_invariant (P : State → Prop) dark :
  P (boot data dark) →
  (∀ e s, reachable data dark s → enabled e s = true → P s →
          P (dispatch data e s)) →
  ∀ s, reachable data dark s → P s.
Proof.
  intros Hboot Hstep s. induction 1 as [|s e s' Hs IH Hst]; [done|].
  destruct Hst. by apply Hstep.
Qed.

Lemma reachable_Inv dark s : reachable data dark s → Inv data s.
Proof. apply reachable_invariant; eauto using Inv_dispatch with js. Qed.

(** ** Runs and reachability *)

Lemma reachable_dispatch dark e s :
  reachable data dark s → enabled e s = true →
  reachable data dark (dispatch data e s).
Proof. intros Hs He. eapply reachable_step; [done|by constructor]. Qed.

Lemma reachable_run dark events s :
  reachable data dark s → reachable data dark (run data events s).
Proof.
  revert s. induction events as [|e events IH]; intros s Hs; simpl; [done|].
  apply IH. destruct (enabled e s) eqn:He; [by apply reachable_dispatch|done].
Qed.

Lemma run_app events1 events2 s :
  run data (events1 ++ events2) s = run data events2 (run data events1 s).
Proof.
  revert s. induction events1 as [|e events IH]; intros s; simpl; [done|].
  apply IH.
Qed.

(** ** The list follows the state *)

Lemma dispatch_search_unfold filters s :
  dispatch data (SearchSubmit filters) s =
    match searchBooks data filters with
    | Ok result => updateBookList data result s
    | Throw _ => s
    end.
Proof.
  unfold dispatch. simpl. unfold handleSearchFormSubmit.
  by destruct (searchBooks data filters).
Qed.

(** The handlers of the other events leave [page], [matches] and the list
    as they are. *)
Lemma dispatch_same_list e s :
  changes_list e = false → same_list (dispatch data e s) s.
Proof.
  destruct e; try done; intros _.
  - unfold dispatch. simpl. unfold handleBookPreviewClick.
    by destruct (pathLoop data path None).
  - change (dispatch data SettingsSubmit s) with (handleSettingsSubmit s).
    unfold handleSettingsSubmit, handleThemeToggle. by case_bool_decide.
  - change (dispatch data CloseButtonClick s) with (handleCloseButtonClick s).
    rewrite handleCloseButtonClick_unfold. by case_bool_decide.
Qed.

Lemma list_in_sync_dispatch e s :
  0 ≤ BPP → 0 ≤ page s →
  list_in_sync data s → list_in_sync data (dispatch data e s).
Proof.
  intros HP Hp Hs.
  destruct (changes_list e) eqn:He; [|by rewrite dispatch_same_list].
  destruct e; try done.
  - rewrite dispatch_search_unfold.
    destruct (searchBooks data filters); auto with js.
  - by apply handleListButtonClick_in_sync.
Qed.

Lemma boot_in_sync dark : list_in_sync data (boot data dark).
Proof.
  rewrite boot_unfold. unfold list_in_sync, shown. simpl. by rewrite Z.mul_1_l.
Qed.

Lemma reachable_in_sync dark s :
  0 ≤ BPP → reachable data dark s → list_in_sync data s.
Proof.
  intros HP. apply reachable_invariant; [apply boot_in_sync|].
  intros e s' []%reachable_Inv _. apply list_in_sync_dispatch; [done|lia].
Qed.

(** ** Clicks in the list *)

Lemma close_listeners_dispatch e s :
  close_listeners (detail_view (doc (dispatch data e s))) =
    if opens data e then S (close_listeners (detail_view (doc s)))
    else close_listeners (detail_view (doc s)).
Proof.
  destruct e; try done.
  - rewrite dispatch_search_unfold.
    destruct (searchBooks data filters); [by rewrite updateBookList_unfold|done].
  - unfold dispatch. simpl. unfold handleBookPreviewClick.
    by destruct (pathLoop data path None).
  - change (dispatch data SettingsSubmit s) with (handleSettingsSubmit s).
    unfold handleSettingsSubmit, handleThemeToggle. by case_bool_decide.
  - change (dispatch data CloseButtonClick s) with (handleCloseButtonClick s).
    rewrite handleCloseButtonClick_unfold. by case_bool_decide.
Qed.

Lemma close_listeners_run events s :
  close_listeners (detail_view (doc (run data events s))) =
    (close_listeners (detail_view (doc s))
     + length (filter (λ e, opens data e = true) events))%nat.
Proof.
  revert s. induction events as [|e events IH]; intros s; simpl; [lia|].
  rewrite IH, filter_cons.
  destruct (enabled e s) eqn:He.
  - rewrite close_listeners_dispatch.
    destruct (opens data e); case_decide; simpl; done || lia.
  - by destruct e.
Qed.

Lemma lookup_shown s (i : nat) (el : Element) :
  0 ≤ page s * BPP → shown data s !! i = Some el →
  ∃ b, matches s !! i = Some b ∧ el = createBookPreview data b.
Proof.
  unfold shown, previews. intros Hp.
  rewrite slice_0, list_lookup_fmap by done.
  intros (b & Hb & ->)%fmap_Some. exists b. split; [|done].
  by apply lookup_take_Some in Hb as [].
Qed.

(** ** The label *)

#[export] Instance label_ok_proper : Proper (same_list ==> iff) (label_ok data).
Proof.
  intros s s' Hs. unfold label_ok.
  rewrite (label_in_sync_proper _ _ _ Hs). by destruct Hs as (-> & -> & ->).
Qed.

Lemma label_ok_dispatch e s : label_ok data s → label_ok data (dispatch data e s).
Proof.
  intros Hs.
  destruct (changes_list e) eqn:He; [|by rewrite dispatch_same_list].
  destruct e; try done.
  - rewrite dispatch_search_unfold.
    destruct (searchBooks data filters); [|done].
    right. apply updateBookList_label.
  - right. apply handleListButtonClick_label.
Qed.

Lemma reachable_label_ok dark s : reachable data dark s → label_ok data s.
Proof.
  apply reachable_invariant; [left; by rewrite boot_unfold|].
  intros e s' _ _. apply label_ok_dispatch.
Qed.

(** ** Runs that never search *)

(** The state of a page on which show more is disabled and no search has
    been made yet. *)
Definition first_page_only (s : State) : Prop :=
  page s = 1 ∧ matches s = books data
  ∧ list_items (list_view (doc s)) = previews data (slice (books data) 0 BPP)
  ∧ list_button_disabled (list_view (doc s)) = true.

#[export] Instance first_page_only_proper :
  Proper (same_list ==> iff) first_page_only.
Proof. intros s s' (Hp & Hm & Hl). unfold first_page_only. by rewrite Hp, Hm, Hl. Qed.

Lemma first_page_only_dispatch e s :
  is_search e = false → enabled e s = true →
  first_page_only s → first_page_only (dispatch data e s).
Proof.
  intros He Hen Hs.
  destruct (changes_list e) eqn:Hc; [|by rewrite dispatch_same_list].
  destruct e; try done. destruct Hs as (_ & _ & _ & Hd).
  simpl in Hen. by rewrite Hd in Hen.
Qed.

Lemma first_page_only_run events s :
  forallb (λ e, negb (is_search e)) events = true →
  first_page_only s → first_page_only (run data events s).
Proof.
  revert s. induction events as [|e events IH]; intros s; simpl; [done|].
  intros [He Hev]%andb_true_iff Hs. apply IH; [done|].
  destruct (enabled e s) eqn:Hen; [|done].
  apply first_page_only_dispatch; [by apply negb_true_iff|done..].
Qed.

(** ** The program, stated *)

(** C8: the state in which [initializePage] leaves a freshly loaded page:
    the first page of the whole catalogue in the list, both menus filled,
    the theme and palette of the preference, the label with
    [books.length - BOOKS_PER_PAGE] as it comes, and the button disabled
    exactly when that number is positive. *)
Theorem boot_eq dark :
  boot data dark =
    mkState 1 (books data)
      (mkDocument
         (mkListView (previews data (slice (books data) 0 BPP)) false
            (bool_decide (BPP < arrayLength (books data)))
            (initialButtonText data))
         (detail_view initial_document)
         (mkSearchView false (options "All Genres" (genres data))
            (options "All Authors" (authors data)) false)
         (mkSettingsView false (valueOfTheme (themeOfPreference dark))
            (paletteOf (themeOfPreference dark)).1
            (paletteOf (themeOfPreference dark)).2)
         None).
Proof. apply boot_unfold. Qed.

(** C3: in every state the program can reach, the list holds exactly the
    previews of the first [page * BOOKS_PER_PAGE] matches, in order. *)
Theorem reachable_list_in_sync dark s :
  0 ≤ BPP → reachable data dark s →
  list_items (list_view (doc s)) =
    previews data (slice (matches s) 0 (page s * BPP)).
Proof. apply reachable_in_sync. Qed.

(** C15: in every reachable state [page] is at least 1, the matches are a
    subsequence of the catalogue, and the no-results message is shown only
    when there is no match. *)
Theorem reachable_browsing dark s :
  reachable data dark s →
  1 ≤ page s ∧ matches s `sublist_of` books data
  ∧ (list_message_show (list_view (doc s)) = true → matches s = []).
Proof. intros []%reachable_Inv. done. Qed.

(** C16: in every reachable state an open detail overlay can be closed: a
    click on its close button finds a listener and closes it. *)
Theorem reachable_can_close dark s :
  reachable data dark s →
  list_active_open (detail_view (doc s)) = true →
  list_active_open (detail_view (doc (dispatch data CloseButtonClick s))) = false.
Proof.
  intros [_ _ _ Hc _ _ _]%reachable_Inv Ho.
  change (dispatch data CloseButtonClick s) with (handleCloseButtonClick s).
  rewrite handleCloseButtonClick_unfold.
  rewrite bool_decide_eq_false_2; [done|]. specialize (Hc Ho). lia.
Qed.

(** C35: in every reachable state the palette on display is that of one of
    the two themes, and the two filter menus hold the entries of the
    catalogue behind their [any] option. *)
Theorem reachable_views dark s :
  reachable data dark s →
  (∃ t, palette s = paletteOf t)
  ∧ search_genres (search_view (doc s)) = options "All Genres" (genres data)
  ∧ search_authors (search_view (doc s)) = options "All Authors" (authors data).
Proof. intros []%reachable_Inv. done. Qed.

(** C36: in every reachable state the label of the button is either the
    text of start-up, with no search or click since, or the template of
    [updateListButton] with the number of matches not yet shown. *)
Theorem reachable_label dark s :
  reachable data dark s →
  (list_button_innerHTML (list_view (doc s)) = initialButtonText data
   ∧ page s = 1 ∧ matches s = books data)
  ∨ list_button_innerHTML (list_view (doc s)) =
      listButtonHTML (remainingCount data s).
Proof. apply reachable_label_ok. Qed.

(** C14: after start-up the show more button accepts a click exactly when
    the whole catalogue is already on the first page: [initializePage]
    disables it when books remain and enables it when none does. *)
Theorem boot_button dark :
  enabled ListButtonClick (boot data dark) =
    bool_decide (remainingCount data (boot data dark) = 0).
Proof.
  rewrite boot_unfold. unfold remainingCount, leftOver. simpl.
  repeat case_bool_decide; simpl; (done || lia).
Qed.

(** C13: when the catalogue is larger than a page, no sequence of events
    without a search ever shows more than the first page: [page] stays 1
    and the list keeps the first [BOOKS_PER_PAGE] previews. *)
Theorem stuck_on_first_page dark events :
  BPP < arrayLength (books data) →
  forallb (λ e, negb (is_search e)) events = true →
  page (run data events (boot data dark)) = 1
  ∧ list_items (list_view (doc (run data events (boot data dark)))) =
      previews data (slice (books data) 0 BPP).
Proof.
  intros Hlen Hev.
  destruct (first_page_only_run events (boot data dark) Hev) as (?&?&?&?);
    [|done].
  rewrite boot_unfold. repeat split. simpl. by apply bool_decide_eq_true_2.
Qed.

(** C17: a search submitted from a form without a [title] field, on a
    catalogue that is not empty, throws and leaves the state as it was. *)
Theorem search_without_title filters s :
  filters !! "title" = None → books data ≠ [] →
  isOk (handle data (SearchSubmit filters) s) = false
  ∧ dispatch data (SearchSubmit filters) s = s.
Proof.
  intros Ht Hb. rewrite dispatch_search_unfold. simpl.
  unfold handleSearchFormSubmit, searchBooks.
  destruct (books data) as [|b l]; [done|].
  by destruct (searchLoop_no_title filters b l [] Ht) as [err ->].
Qed.

(** C19: a search from a form with a [title] field replaces the list by the
    first page of the filtered catalogue, through [updateBookList]. *)
Theorem search_with_title filters title s :
  filters !! "title" = Some title →
  dispatch data (SearchSubmit filters) s =
    updateBookList data
      (filterBooks title (filters !! "author") (filters !! "genre") (books data)) s.
Proof.
  intros Ht. rewrite dispatch_search_unfold. unfold searchBooks.
  by rewrite (searchLoop_filterBooks _ title).
Qed.

(** C18: a form that lacks the [author] or the [genre] field is not read as
    [any]: the search finds nothing. *)
Theorem search_missing_field filters title s :
  filters !! "title" = Some title →
  filters !! "author" = None ∨ filters !! "genre" = None →
  dispatch data (SearchSubmit filters) s = updateBookList data [] s.
Proof.
  intros Ht Hmiss. rewrite dispatch_search_unfold. unfold searchBooks.
  rewrite (searchLoop_filterBooks _ title) by done. simpl. f_equal.
  apply filter_none, Forall_forall. intros b _ (_ & Ha & Hg).
  destruct Hmiss as [Hm|Hm]; rewrite Hm in *.
  - by destruct Ha.
  - destruct Hg as [|(? & ? & _)]; done.
Qed.

(** C12: in a reachable state every element of the list is the preview of the
    match at the same position, and a click inside it opens the detail
    overlay on that book. *)
Theorem click_shown_item dark s (i : nat) (el : Element) inner outer :
  wf_data data → reachable data dark s →
  list_items (list_view (doc s)) !! i = Some el →
  ∃ b, matches s !! i = Some b ∧ el = createBookPreview data b
       ∧ dispatch data (ListItemsClick (pathOfPreview inner el outer)) s =
           with_doc (with_detail_view (showDetail data b)) s.
Proof.
  intros Hwf Hs He. pose proof (wf_data_nonneg _ Hwf) as HP.
  pose proof (reachable_Inv _ _ Hs) as HI.
  rewrite (reachable_in_sync dark s) in He by done.
  apply lookup_shown in He as (b & Hb & ->); [|destruct HI; nia].
  exists b. split_and!; [done..|].
  apply handleBookPreviewClick_preview; [done|].
  eapply elem_of_sublist; [|apply (inv_matches _ _ HI)].
  by eapply list_elem_of_lookup_2.
Qed.

(** C31: the number of listeners on the close button is the number of clicks
    that have opened the overlay since the page was loaded: one is added at
    every opening and none is ever removed. *)
Theorem listeners_count dark events :
  close_listeners (detail_view (doc (run data events (boot data dark)))) =
    length (filter (λ e, opens data e = true) events).
Proof. by rewrite close_listeners_run, boot_unfold. Qed.

End app_facts.

#[export] Hint Rewrite @boot_unfold @dispatch_search_unfold : js_rw.
#[export] Hint Resolve Inv_boot Inv_dispatch reachable_Inv reachable_run : js.
#[export] Hint Resolve reachable_boot reachable_dispatch : js.

(** ** The theorems on the small catalogue *)

#[local] Existing Instance demo_host.

(** A session: open the search, look for science fiction, show more, open
    a book, switch to the day theme. *)
Definition demo_events : list Event :=
  [ HeaderSearchClick; SearchSubmit (mkFilters "" "any" "g1"); ListButtonClick;
    ListItemsClick [mkPathNode None; mkPathNode (Some "b5"); mkPathNode None];
    ThemeSelect "day"; HeaderSettingsClick; SettingsSubmit ].

Definition demo_state : State := run demo_data demo_events (boot demo_data true).

Lemma demo_reachable : reachable demo_data true demo_state.
Proof. apply reachable_run, reachable_boot. Qed.

Lemma reachable_list_in_sync_witness :
  list_items (list_view (doc demo_state)) =
    previews demo_data (slice (matches demo_state) 0 (page demo_state * 2)).
Proof.
  apply (reachable_list_in_sync demo_data true demo_state);
    [done|apply demo_reachable].
Defined.

Lemma reachable_browsing_witness :
  1 ≤ page demo_state ∧ matches demo_state `sublist_of` books demo_data
  ∧ (list_message_show (list_view (doc demo_state)) = true → matches demo_state = []).
Proof. apply (reachable_browsing demo_data true demo_state), demo_reachable. Defined.

Lemma reachable_can_close_witness :
  list_active_open (detail_view (doc demo_state)) = true
  ∧ list_active_open
      (detail_view (doc (dispatch demo_data CloseButtonClick demo_state))) = false.
Proof.
  split; [reflexivity|].
  apply (reachable_can_close demo_data true demo_state);
    [apply demo_reachable|reflexivity].
Defined.

Lemma reachable_views_witness :
  (∃ t, palette demo_state = paletteOf t)
  ∧ search_genres (search_view (doc demo_state)) =
      options "All Genres" (genres demo_data)
  ∧ search_authors (search_view (doc demo_state)) =
      options "All Authors" (authors demo_data).
Proof. apply (reachable_views demo_data true demo_state), demo_reachable. Defined.

Lemma reachable_label_witness :
  (list_button_innerHTML (list_view (doc demo_state)) = initialButtonText demo_data
   ∧ page demo_state = 1 ∧ matches demo_state = books demo_data)
  ∨ list_button_innerHTML (list_view (doc demo_state)) =
      listButtonHTML (remainingCount demo_data demo_state).
Proof. apply (reachable_label demo_data true demo_state), demo_reachable. Defined.

Lemma stuck_on_first_page_witness :
  page (run demo_data [ListButtonClick; HeaderSearchClick; ListButtonClick]
          (boot demo_data false)) = 1
  ∧ list_items (list_view (doc
      (run demo_data [ListButtonClick; HeaderSearchClick; ListButtonClick]
         (boot demo_data false)))) =
      previews demo_data (slice (books demo_data) 0 2).
Proof.
  apply (stuck_on_first_page demo_data false
           [ListButtonClick; HeaderSearchClick; ListButtonClick]);
    reflexivity.
Defined.

Lemma search_without_title_witness :
  isOk (handle demo_data (SearchSubmit {[ "author" := "any" ]}) (boot demo_data true))
    = false
  ∧ dispatch demo_data (SearchSubmit {[ "author" := "any" ]}) (boot demo_data true)
    = boot demo_data true.
Proof.
  apply (search_without_title demo_data {[ "author" := "any" ]}
           (boot demo_data true)); [reflexivity|discriminate].
Defined.

Lemma search_with_title_witness :
  dispatch demo_data (SearchSubmit (mkFilters "dune" "any" "any")) (boot demo_data true) =
    updateBookList demo_data
      (filterBooks "dune" (mkFilters "dune" "any" "any" !! "author")
         (mkFilters "dune" "any" "any" !! "genre") (books demo_data))
      (boot demo_data true).
Proof.
  apply (search_with_title demo_data (mkFilters "dune" "any" "any") "dune").
  reflexivity.
Defined.

Lemma search_missing_field_witness :
  dispatch demo_data (SearchSubmit {[ "title" := ""; "genre" := "any" ]})
    (boot demo_data true) =
    updateBookList demo_data [] (boot demo_data true).
Proof.
  apply (search_missing_field demo_data {[ "title" := ""; "genre" := "any" ]} "");
    [reflexivity|left; reflexivity].
Defined.

Lemma click_shown_item_witness :
  ∃ b, matches demo_state !! 2%nat = Some b
       ∧ createBookPreview demo_data (demo_books !!! 4%nat) =
           createBookPreview demo_data b
       ∧ dispatch demo_data
           (ListItemsClick
              (pathOfPreview 1
                 (createBookPreview demo_data (demo_books !!! 4%nat)) 3))
           demo_state =
           with_doc (with_detail_view (showDetail demo_data b)) demo_state.
Proof.
  apply (click_shown_item demo_data true demo_state 2 _ 1 3);
    [apply demo_data_wf|apply demo_reachable|reflexivity].
Defined.

(** ** Scenarios of the specification *)

(** Five books, a page of two, a search that matches three: two previews
    and one remaining; after show more, the third preview and none
    remaining. *)
Example scenario_pagination :
  let s1 := dispatch demo_data (SearchSubmit (mkFilters "" "any" "g1")) (boot demo_data false) in
  let s2 := dispatch demo_data ListButtonClick s1 in
  book_id <$> matches s1 = ["b1"; "b2"; "b5"]
  ∧ data_preview <$> list_items (list_view (doc s1)) = ["b1"; "b2"]
  ∧ remainingCount demo_data s1 = 1
  ∧ enabled ListButtonClick s1 = true
  ∧ data_preview <$> list_items (list_view (doc s2)) = ["b1"; "b2"; "b5"]
  ∧ remainingCount demo_data s2 = 0.
Proof. vm_compute. done. Qed.

(** The button stays enabled when nothing remains, and a further click
    only moves [page]. *)
Example scenario_click_past_end :
  let s2 := run demo_data [SearchSubmit (mkFilters "" "any" "g1"); ListButtonClick]
              (boot demo_data false) in
  let s3 := dispatch demo_data ListButtonClick s2 in
  remainingCount demo_data s2 = 0
  ∧ enabled ListButtonClick s2 = true
  ∧ page s3 = 3
  ∧ list_items (list_view (doc s3)) = list_items (list_view (doc s2)).
Proof. vm_compute. done. Qed.

(** Night at start-up for a dark preference; day once the select says so
    and the form is submitted, and not before. *)
Example scenario_theme :
  let s0 := boot demo_data true in
  let s1 := dispatch demo_data (ThemeSelect "day") s0 in
  let s2 := dispatch demo_data SettingsSubmit s1 in
  palette s0 = paletteOf Night ∧ palette s1 = paletteOf Night
  ∧ palette s2 = paletteOf Day.
Proof. vm_compute. done. Qed.

(** A catalogue smaller than a page: the label of start-up shows a
    negative number, and the button is enabled. *)
Example scenario_small_catalogue :
  let data := mkData (take 1 demo_books) (authors demo_data) (genres demo_data) 2 in
  list_button_innerHTML (list_view (doc (boot data false))) = "Show more (-1)"
  ∧ list_button_disabled (list_view (doc (boot data false))) = false.
Proof. vm_compute. done. Qed.
