(* ===== verification/Session.v ===== *)
(** * The browsing session of the specification, and refinement

    The specification describes the program as a session value
    ([currentPage], [matchSet], the selected book, the theme) moved by input
    events through pure functions: [filter], [initialize], [advance],
    [resolve], [setTheme].  This file states that machine, the relation
    between its states and those of the program, and proves that every step
    of the program is a step of the machine (a forward simulation).

    The machine has no guard on [advance]: the specification leaves the
    disabling of the action to the caller.  A search whose form lacks one of
    the three fields is outside the simulation: the specification reads a
    missing field as [any], the program does not (see
    [search_missing_field] and [search_without_title] of [App.v]). *)

From S2P Require Import Prelude JsString Catalog Dom Render.
From S2P Require Import Filter Pagination Selection Theme App.
Set Warnings "-clear-no-such-hyp".

(** ** The abstract machine *)

Record FilterCriteria : Type := mkCriteria {
  criteria_title : string;
  criteria_author : string;
  criteria_genre : string;
}.

Record Session : Type := mkSession {
  currentPage : Z;
  matchSet : list Book;
  selectedBook : option Book;
  themeState : Theme;
}.

Inductive SpecEvent : Type :=
  | SpSearchSubmit (criteria : FilterCriteria)
  | SpShowMore
  | SpItemSelect (id : string)
  | SpDetailClose
  | SpThemeSubmit (t : Theme)
  | SpOther.

#[export] Instance FilterCriteria_eq_dec : EqDecision FilterCriteria.
Proof. solve_decision. Defined.
#[export] Instance Session_eq_dec : EqDecision Session.
Proof. solve_decision. Defined.
#[export] Instance SpecEvent_eq_dec : EqDecision SpecEvent.
Proof. solve_decision. Defined.

Section session.
Context `{Host} (data : Data).

Definition spec_filter (catalog : list Book) (c : FilterCriteria) : list Book :=
  filterBooks (criteria_title c) (Some (criteria_author c))
    (Some (criteria_genre c)) catalog.

Definition spec_initialize (m : list Book) (σ : Session) : Session :=
  mkSession 1 m (selectedBook σ) (themeState σ).

Definition spec_advance (σ : Session) : Session :=
  mkSession (currentPage σ + 1) (matchSet σ) (selectedBook σ) (themeState σ).

(** The items on display after a full render. *)
Definition visibleSlice (σ : Session) : list Book :=
  slice (matchSet σ) 0 (currentPage σ * BOOKS_PER_PAGE data).

(** The items a show more appends. *)
Definition appendWindow (σ : Session) : list Book :=
  slice (matchSet σ) ((currentPage σ - 1) * BOOKS_PER_PAGE data)
    (currentPage σ * BOOKS_PER_PAGE data).

Definition spec_remainingCount (σ : Session) : Z :=
  Z.max 0 (arrayLength (matchSet σ) - currentPage σ * BOOKS_PER_PAGE data).

Definition spec_init (dark : bool) : Session :=
  mkSession 1 (books data) None (themeOfPreference dark).

Definition spec_step (σ : Session) (ev : SpecEvent) : Session :=
  match ev with
  | SpSearchSubmit c => spec_initialize (spec_filter (books data) c) σ
  | SpShowMore => spec_advance σ
  | SpItemSelect id =>
      match resolve (books data) id with
      | Some b => mkSession (currentPage σ) (matchSet σ) (Some b) (themeState σ)
      | None => σ
      end
  | SpDetailClose => mkSession (currentPage σ) (matchSet σ) None (themeState σ)
  | SpThemeSubmit t => mkSession (currentPage σ) (matchSet σ) (selectedBook σ) t
  | SpOther => σ
  end.

(** ** From the program to the machine *)

(** The abstract event an event of the page stands for, in a given state:
    a submit of the settings form carries the theme of the select, a click
    in the list the identifier the path resolves to. *)
Definition abs_event (s : State) (e : Event) : SpecEvent :=
  match e with
  | SearchSubmit filters =>
      match filters !! "title", filters !! "author", filters !! "genre" with
      | Some t, Some a, Some g => SpSearchSubmit (mkCriteria t a g)
      | _, _, _ => SpOther
      end
  | ListButtonClick => SpShowMore
  | ListItemsClick path =>
      match head (omap (resolveNode data) path) with
      | Some b => SpItemSelect (book_id b)
      | None => SpOther
      end
  | CloseButtonClick => SpDetailClose
  | SettingsSubmit => SpThemeSubmit (themeOfValue (settings_theme (settings_view (doc s))))
  | _ => SpOther
  end.

(** The events inside the simulation: a search form has its three fields. *)
Definition form_ok (e : Event) : bool :=
  match e with
  | SearchSubmit filters =>
      bool_decide (is_Some (filters !! "title") ∧ is_Some (filters !! "author")
                   ∧ is_Some (filters !! "genre"))
  | _ => true
  end.

(** The detail overlay shows the selected book, or is closed. *)
Definition detail_shows (v : DetailView) (selected : option Book) : Prop :=
  match selected with
  | Some b =>
      list_active_open v = true ∧ list_blur_src v = book_image b
      ∧ list_image_src v = book_image b ∧ list_title v = book_title b
      ∧ list_subtitle v = detailSubtitle data b
      ∧ list_description v = book_description b
  | None => list_active_open v = false
  end.

(** The simulation relation. *)
Record sim (s : State) (σ : Session) : Prop := mkSim {
  sim_page : page s = currentPage σ;
  sim_page_pos : 1 ≤ currentPage σ;
  sim_matches : matches s = matchSet σ;
  sim_list : list_items (list_view (doc s)) = previews data (visibleSlice σ);
  sim_detail : detail_shows (detail_view (doc s)) (selectedBook σ);
  sim_close :
    list_active_open (detail_view (doc s)) = true →
    (0 < close_listeners (detail_view (doc s)))%nat;
  sim_palette : palette s = paletteOf (themeState σ);
}.

(** The machine follows a run of the program event by event. *)
Fixpoint spec_run (events : list Event) (s : State) (σ : Session) : Session :=
  match events with
  | [] => σ
  | e :: rest =>
      if enabled e s
      then spec_run rest (dispatch data e s) (spec_step σ (abs_event s e))
      else spec_run rest s σ
  end.

End session.

(** ** Lemmas: the machine *)

Section machine_facts.
Context (data : Data).
Implicit Types (σ : Session) (c : FilterCriteria).

Lemma spec_filter_sublist catalog c : spec_filter catalog c `sublist_of` catalog.
Proof. apply sublist_filter. Qed.

Lemma spec_filter_idemp catalog c :
  spec_filter (spec_filter catalog c) c = spec_filter catalog c.
Proof. unfold spec_filter, filterBooks. by apply list_filter_filter_l. Qed.

Lemma spec_filter_neutral catalog :
  spec_filter catalog (mkCriteria EmptyString "any" "any") = catalog.
Proof.
  unfold spec_filter, filterBooks. apply filter_all, Forall_forall.
  intros b _. repeat split; by left.
Qed.

Lemma spec_remainingCount_advance σ (n : nat) :
  spec_remainingCount data (Nat.iter n spec_advance σ) =
    Z.max 0 (arrayLength (matchSet σ)
             - (currentPage σ + Z.of_nat n) * BOOKS_PER_PAGE data).
Proof.
  assert (currentPage (Nat.iter n spec_advance σ) = currentPage σ + Z.of_nat n
          ∧ matchSet (Nat.iter n spec_advance σ) = matchSet σ) as [Hp Hm].
  { induction n as [|n [IH1 IH2]]; simpl; [split; [lia|done]|].
    rewrite IH1, IH2. split; [lia|done]. }
  unfold spec_remainingCount. by rewrite Hp, Hm.
Qed.

End machine_facts.

(** ** Lemmas: simulation *)

Section refinement.
Context `{Host} (data : Data).
Implicit Types (s : State) (σ : Session) (e : Event).

#[local] Abbreviation BPP := (BOOKS_PER_PAGE data).

Lemma resolveNode_resolve node b :
  resolveNode data node = Some b → resolve (books data) (book_id b) = Some b.
Proof.
  unfold resolveNode. destruct (truthy _); [|done].
  intros Hr. by destruct (resolve_Some _ _ _ Hr) as [_ ->].
Qed.

Lemma head_omap_Some {A B} (f : A → option B) (l : list A) b :
  head (omap f l) = Some b → ∃ a, a ∈ l ∧ f a = Some b.
Proof.
  induction l as [|a l IH]; simpl; [done|].
  destruct (f a) as [b'|] eqn:Hfa; simpl.
  - intros [= ->]. exists a. split; [left|done].
  - intros (a' & ? & ?)%IH. exists a'. split; [by right|done].
Qed.

Lemma sim_init dark : sim data (boot data dark) (spec_init data dark).
Proof.
  split; unfold visibleSlice, palette; js_simpl; try done.
  by destruct dark.
Qed.

Lemma sim_search t a g s σ :
  sim data s σ →
  sim data
    (updateBookList data (filterBooks t (Some a) (Some g) (books data)) s)
    (spec_step data σ (SpSearchSubmit (mkCriteria t a g))).
Proof.
  intros []. split; unfold visibleSlice; by js_simpl.
Qed.

Lemma sim_show_more s σ :
  0 ≤ BPP → sim data s σ →
  sim data (handleListButtonClick data s) (spec_step data σ SpShowMore).
Proof.
  intros HP [Hp Hpos Hm Hl Hd Hc Hpal].
  split; js_simpl; try done; try lia.
  unfold visibleSlice in *. simpl. rewrite Hl, Hp, Hm, <-previews_app.
  f_equal. apply slice_window. nia.
Qed.

Lemma sim_select path s σ :
  sim data s σ →
  sim data (handleBookPreviewClick data path s)
    (spec_step data σ (abs_event data s (ListItemsClick path))).
Proof.
  intros Hs. unfold handleBookPreviewClick. rewrite pathLoop_head. simpl.
  destruct (head (omap (resolveNode data) path)) as [b|] eqn:Hh; [|done].
  apply head_omap_Some in Hh as (node & _ & Hn).
  simpl. rewrite (resolveNode_resolve _ _ Hn).
  destruct Hs. split; simpl; try done. lia.
Qed.

Lemma sim_close_click s σ :
  sim data s σ →
  sim data (handleCloseButtonClick s) (spec_step data σ SpDetailClose).
Proof.
  intros [Hp Hpos Hm Hl Hd Hc Hpal]. js_simpl.
  case_bool_decide as Hn; split; simpl; try done.
  destruct (list_active_open (detail_view (doc s))) eqn:Ho; [|done].
  specialize (Hc eq_refl). lia.
Qed.

Lemma sim_settings s σ :
  sim data s σ →
  sim data (handleSettingsSubmit s)
    (spec_step data σ (abs_event data s SettingsSubmit)).
Proof.
  intros [Hp Hpos Hm Hl Hd Hc Hpal].
  destruct (handleSettingsSubmit_browsing s) as (Hp' & Hm' & Hl' & Hd').
  split; rewrite ?Hp', ?Hm', ?Hl', ?Hd'; try done.
  apply (handleThemeToggle_palette s).
Qed.

Lemma sim_step e s σ :
  0 ≤ BPP → form_ok e = true → sim data s σ →
  sim data (dispatch data e s) (spec_step data σ (abs_event data s e)).
Proof.
  intros HP Hf Hs. destruct e; try (by destruct Hs).
  - simpl in Hf. apply bool_decide_eq_true in Hf as ([t Ht] & [a Ha] & [g Hg]).
    rewrite dispatch_search_unfold. unfold searchBooks.
    rewrite (searchLoop_filterBooks _ t) by done. simpl.
    rewrite Ht, Ha, Hg. by apply sim_search.
  - by apply sim_show_more.
  - by apply sim_select.
  - by apply sim_settings.
  - by apply sim_close_click.
Qed.

Lemma sim_run events s σ :
  0 ≤ BPP → forallb form_ok events = true → sim data s σ →
  sim data (run data events s) (spec_run data events s σ).
Proof.
  intros HP. revert s σ. induction events as [|e events IH]; intros s σ; simpl; [done|].
  intros [He Hev]%andb_true_iff Hs.
  destruct (enabled e s); apply IH; try done. by apply sim_step.
Qed.

(** ** Refinement, stated *)

(** C37: one step of the program is one step of the session machine: from
    related states, dispatching an event whose form is complete leads to
    the state related to the machine's next state for the corresponding
    abstract event. *)
Theorem refinement_step e s σ :
  0 ≤ BPP → form_ok e = true → sim data s σ →
  sim data (dispatch data e s) (spec_step data σ (abs_event data s e)).
Proof. apply sim_step. Qed.

(** C2: the program refines the session machine: after any run of events
    with complete forms from start-up, the state of the program is related
    to the state the machine reaches on the corresponding abstract events;
    in particular [page] and [matches] are its [currentPage] and [matchSet],
    the list holds the previews of its visible slice, the detail overlay
    shows its selected book and the palette is that of its theme. *)
Theorem refinement dark events :
  0 ≤ BPP → forallb form_ok events = true →
  sim data (run data events (boot data dark))
    (spec_run data events (boot data dark) (spec_init data dark)).
Proof. intros HP Hev. apply sim_run; [done|done|apply sim_init]. Qed.

End refinement.

(** ** The theorems on the small catalogue *)

#[local] Existing Instance demo_host.

Lemma refinement_step_witness :
  sim demo_data
    (dispatch demo_data (SearchSubmit (mkFilters "" "any" "g1")) (boot demo_data true))
    (spec_step demo_data (spec_init demo_data true)
       (abs_event demo_data (boot demo_data true)
          (SearchSubmit (mkFilters "" "any" "g1")))).
Proof.
  apply (refinement_step demo_data (SearchSubmit (mkFilters "" "any" "g1")));
    [done|reflexivity|apply sim_init].
Defined.

Lemma refinement_witness :
  sim demo_data demo_state
    (spec_run demo_data demo_events (boot demo_data true) (spec_init demo_data true)).
Proof. apply (refinement demo_data true demo_events); [done|reflexivity]. Defined.

(** The session the machine reaches on the events of [demo_events]. *)
Example demo_session :
  spec_run demo_data demo_events (boot demo_data true) (spec_init demo_data true) =
    mkSession 2 [demo_books !!! 0%nat; demo_books !!! 1%nat; demo_books !!! 4%nat]
      (Some (demo_books !!! 4%nat)) Day.
Proof. vm_compute. reflexivity. Qed.
