(* ===== verification/Commands.v ===== *)
(** * Render commands

    The specification separates the logic of the page from its display: the
    reducer answers an input event with a new session and a list of
    commands for the display layer ([renderList] in replace or append mode,
    [showDetail], [hideDetail], [setRemainingCount], [setPalette]).  The
    script has no such layer; its handlers write to the document directly.

    This file states the commands, what carrying one out means on the
    document (the writes the script performs for it), and the commands the
    session machine of [Session.v] emits at each event.  It proves that the
    document after any run of the program is the document after start-up
    with the emitted commands carried out in order, up to the parts of the
    page no command governs (the overlays' open flags, the no-results
    message, the disabled flag, the scroll position, the listeners). *)

From S2P Require Import Prelude JsString Catalog Dom Render.
From S2P Require Import Filter Pagination Selection Theme App Session.
Set Warnings "-clear-no-such-hyp".

Inductive RenderMode : Type := Replace | Append.

Inductive RenderCommand : Type :=
  | RenderList (bookList : list Book) (mode : RenderMode)
  | ShowDetail (book : Book)
  | HideDetail
  | SetRemainingCount (n : Z)
  | SetPalette (t : Theme).

#[export] Instance RenderMode_eq_dec : EqDecision RenderMode.
Proof. solve_decision. Defined.
#[export] Instance RenderCommand_eq_dec : EqDecision RenderCommand.
Proof. solve_decision. Defined.

(** What the commands govern: the list, the label of the button, the
    contents of the detail overlay and the palette. *)
Definition display (d : Document)
    : list Element * string
      * (bool * string * string * string * string * string)
      * (option string * option string) :=
  (list_items (list_view d), list_button_innerHTML (list_view d),
   (list_active_open (detail_view d), list_blur_src (detail_view d),
    list_image_src (detail_view d), list_title (detail_view d),
    list_subtitle (detail_view d), list_description (detail_view d)),
   (color_dark (settings_view d), color_light (settings_view d))).

(** Two documents that display the same. *)
Definition same_display (d d' : Document) : Prop := display d = display d'.

(** The two calls of [setProperty] for a theme. *)
Definition setPalette (t : Theme) (v : SettingsView) : SettingsView :=
  match t with
  | Night => nightPalette v
  | Day => dayPalette v
  end.

Section commands.
Context `{Host} (data : Data).

(** Carrying out one command. *)
Definition exec (c : RenderCommand) (d : Document) : Document :=
  match c with
  | RenderList bookList Replace =>
      with_list_view (set_list_items (previews data bookList)) d
  | RenderList bookList Append =>
      with_list_view
        (λ v, set_list_items (list_items v ++ previews data bookList) v) d
  | ShowDetail book => with_detail_view (showDetail data book) d
  | HideDetail => with_detail_view (set_list_active_open false) d
  | SetRemainingCount n =>
      with_list_view (set_list_button_innerHTML (listButtonHTML n)) d
  | SetPalette t => with_settings_view (setPalette t) d
  end.

Fixpoint execAll (commands : list RenderCommand) (d : Document) : Document :=
  match commands with
  | [] => d
  | c :: rest => execAll rest (exec c d)
  end.

(** The commands the reducer emits with a step of the session. *)
Definition spec_commands (σ : Session) (ev : SpecEvent) : list RenderCommand :=
  let σ' := spec_step data σ ev in
  match ev with
  | SpSearchSubmit _ =>
      [RenderList (visibleSlice data σ') Replace;
       SetRemainingCount (spec_remainingCount data σ')]
  | SpShowMore =>
      [RenderList (appendWindow data σ') Append;
       SetRemainingCount (spec_remainingCount data σ')]
  | SpItemSelect id =>
      match resolve (books data) id with
      | Some book => [ShowDetail book]
      | None => []
      end
  | SpDetailClose => [HideDetail]
  | SpThemeSubmit t => [SetPalette t]
  | SpOther => []
  end.

(** The commands emitted along a run of the program. *)
Fixpoint spec_trace (events : list Event) (s : State) (σ : Session)
    : list RenderCommand :=
  match events with
  | [] => []
  | e :: rest =>
      if enabled e s
      then spec_commands σ (abs_event data s e)
           ++ spec_trace rest (dispatch data e s)
                (spec_step data σ (abs_event data s e))
      else spec_trace rest s σ
  end.

End commands.

(** ** Lemmas *)

#[export] Instance same_display_equiv : Equivalence same_display.
Proof.
  unfold same_display. split; [done|by intros ??|by intros ??? -> ->].
Qed.

Section commands_facts.
Context `{Host} (data : Data).
Implicit Types (s : State) (σ : Session) (e : Event) (d : Document).
Implicit Types (c : RenderCommand).

#[local] Abbreviation BPP := (BOOKS_PER_PAGE data).

(** Carrying out a command respects the display. *)
#[export] Instance exec_proper c :
  Proper (same_display ==> same_display) (exec data c).
Proof.
  intros d d' Hd. unfold same_display, display in *.
  destruct c as [l []| | | |[]]; simplify_eq/=; congruence.
Qed.

#[export] Instance execAll_proper commands :
  Proper (same_display ==> same_display) (execAll data commands).
Proof.
  induction commands as [|c commands IH]; intros d d' Hd; simpl; [done|].
  by apply IH, exec_proper.
Qed.

Lemma execAll_app commands1 commands2 d :
  execAll data (commands1 ++ commands2) d =
    execAll data commands2 (execAll data commands1 d).
Proof. revert d. induction commands1 as [|c l IH]; intros d; simpl; [done|apply IH]. Qed.

(** The events that are no input of the session leave the display alone. *)
Lemma display_other e s :
  abs_event data s e = SpOther → form_ok e = true →
  same_display (doc (dispatch data e s)) (doc s).
Proof.
  destruct e; try done; simpl.
  - intros Ha Hf. apply bool_decide_eq_true in Hf as ([t Ht] & [a Ha'] & [g Hg]).
    by rewrite Ht, Ha', Hg in Ha.
  - intros Ha _. unfold dispatch. simpl. unfold handleBookPreviewClick.
    rewrite pathLoop_head. by destruct (head _).
Qed.

Lemma commands_search t a g s σ :
  sim data s σ →
  same_display
    (doc (updateBookList data (filterBooks t (Some a) (Some g) (books data)) s))
    (execAll data (spec_commands data σ (SpSearchSubmit (mkCriteria t a g)))
       (doc s)).
Proof.
  intros []. unfold same_display, display, spec_commands, visibleSlice,
    spec_remainingCount. by js_simpl.
Qed.

Lemma commands_show_more s σ :
  sim data s σ →
  same_display (doc (handleListButtonClick data s))
    (execAll data (spec_commands data σ SpShowMore) (doc s)).
Proof.
  intros [Hp _ Hm _ _ _ _]. unfold same_display, display, spec_commands,
    appendWindow, spec_remainingCount. js_simpl.
  by rewrite Hp, Hm, Z.add_simpl_r.
Qed.

Lemma commands_select path s σ :
  same_display (doc (handleBookPreviewClick data path s))
    (execAll data (spec_commands data σ (abs_event data s (ListItemsClick path)))
       (doc s)).
Proof.
  unfold handleBookPreviewClick. rewrite pathLoop_head. simpl.
  destruct (head (omap (resolveNode data) path)) as [b|] eqn:Hh; [|done].
  apply head_omap_Some in Hh as (node & _ & Hn).
  unfold spec_commands. by rewrite (resolveNode_resolve _ _ _ Hn).
Qed.

Lemma commands_close s σ :
  sim data s σ →
  same_display (doc (handleCloseButtonClick s))
    (execAll data (spec_commands data σ SpDetailClose) (doc s)).
Proof.
  intros [_ _ _ _ _ Hc _]. js_simpl. case_bool_decide as Hn; [|done].
  unfold same_display, display. simpl.
  destruct (list_active_open (detail_view (doc s))); [|done].
  specialize (Hc eq_refl). lia.
Qed.

Lemma commands_settings s σ :
  same_display (doc (handleSettingsSubmit s))
    (execAll data (spec_commands data σ (abs_event data s SettingsSubmit))
       (doc s)).
Proof.
  unfold same_display, display, handleSettingsSubmit, handleThemeToggle.
  simpl. unfold themeOfValue. by case_bool_decide.
Qed.

(** One event: the display after the handler is the display after the
    commands of the session's step. *)
Lemma commands_step e s σ :
  form_ok e = true → sim data s σ →
  same_display (doc (dispatch data e s))
    (execAll data (spec_commands data σ (abs_event data s e)) (doc s)).
Proof.
  intros Hf Hs. destruct e; try (by apply display_other).
  - simpl in Hf. apply bool_decide_eq_true in Hf as ([t Ht] & [a Ha] & [g Hg]).
    rewrite dispatch_search_unfold. unfold searchBooks.
    rewrite (searchLoop_filterBooks _ t) by done. simpl.
    rewrite Ht, Ha, Hg. by apply commands_search.
  - by apply commands_show_more.
  - apply commands_select.
  - apply commands_settings.
  - by apply commands_close.
Qed.

Lemma commands_run events s σ d :
  0 ≤ BPP → forallb form_ok events = true →
  sim data s σ → same_display (doc s) d →
  same_display (doc (run data events s))
    (execAll data (spec_trace data events s σ) d).
Proof.
  intros HP. revert s σ d.
  induction events as [|e events IH]; intros s σ d; simpl; [done|].
  intros [He Hev]%andb_true_iff Hs Hd.
  destruct (enabled e s); [|by apply IH].
  rewrite execAll_app. apply IH; [done|by apply sim_step|].
  rewrite <-Hd. by apply commands_step.
Qed.

(** ** The trace, stated *)

(** C11: the document after any run of events with complete search forms
    displays what the document after start-up displays once the commands
    the session machine emitted along the run have been carried out in
    order: the list, the label of the button, the detail overlay and the
    palette are written by the handlers exactly as the commands of the
    specification prescribe. *)
Theorem commands_refinement dark events :
  0 ≤ BPP → forallb form_ok events = true →
  same_display (doc (run data events (boot data dark)))
    (execAll data
       (spec_trace data events (boot data dark) (spec_init data dark))
       (doc (boot data dark))).
Proof. intros HP Hev. apply commands_run; [done|done|apply sim_init|done]. Qed.

End commands_facts.

(** ** The theorems on the small catalogue *)

#[local] Existing Instance demo_host.

Lemma commands_refinement_witness :
  same_display (doc demo_state)
    (execAll demo_data
       (spec_trace demo_data demo_events (boot demo_data true)
          (spec_init demo_data true))
       (doc (boot demo_data true))).
Proof. apply (commands_refinement demo_data true demo_events); done. Defined.

(** The commands of the session of [demo_events]: the science fiction
    titles page by page, the book opened, the palette of the day theme. *)
Example demo_trace :
  spec_trace demo_data demo_events (boot demo_data true)
    (spec_init demo_data true) =
  [ RenderList [demo_books !!! 0%nat; demo_books !!! 1%nat] Replace;
    SetRemainingCount 1;
    RenderList [demo_books !!! 4%nat] Append;
    SetRemainingCount 0;
    ShowDetail (demo_books !!! 4%nat);
    SetPalette Day ].
Proof. vm_compute. reflexivity. Qed.

(** A page that starts in the night theme and is switched to day in the
    settings receives the day palette once. *)
Example scenario_theme_once :
  spec_trace demo_data [HeaderSettingsClick; ThemeSelect "day"; SettingsSubmit]
    (boot demo_data true) (spec_init demo_data true) = [SetPalette Day].
Proof. vm_compute. reflexivity. Qed.
